(** * xknx/io/udp_client.py: the UDP client of the KNX/IP stack

    A shallow embedding of [UDPClient] (construction, the receive path, the
    dispatch of frames to registered callbacks, registration and
    unregistration, the multicast socket, connect, send, stop and the two
    introspection methods), and the properties the specification states
    about them.

    Python objects that the methods mutate are kept in an explicit state;
    what a method does to the outside world (log records, calls on the
    socket and on the asyncio transport, calls of the registered
    callbacks) is written to a trace of events; an exception is an outcome
    of its own, and the state reached when it was raised is kept. *)

From Stdlib Require Import List String Ascii ZArith Bool Arith Lia.
From Stdlib Require Import Strings.Byte.
Import ListNotations.
Local Open Scope list_scope.

(** ** Python values and exceptions *)

(** The exceptions the module raises itself, and the built-in ones its
    statements can raise.  [CouldNotParseKNXIP] is a subclass of
    [XKNXException]. *)
Inductive Exn : Type :=
| XKNXException (msg : string)
| CouldNotParseKNXIP (msg : string)
| TypeError
| ValueError
| AttributeError
| IndexError
| OSError.

(** The result of a call that returns or raises. *)
Inductive Result (A : Type) : Type :=
| Ok (a : A)
| Err (e : Exn).
Arguments Ok {A} a.
Arguments Err {A} e.

(** The values a caller can pass where the constructor expects an address. *)
#[warnings="-register-all"]
Inductive PyVal : Type :=
| PyNone
| PyInt (z : Z)
| PyStr (s : string)
| PyTuple (items : list PyVal)
| PyList (items : list PyVal).

(** [isinstance(v, tuple)] *)
Definition isinstance_tuple (v : PyVal) : bool :=
  match v with
  | PyTuple _ => true
  | _ => false
  end.

(** [v[i]] for a literal index [i >= 0]. *)
Definition py_getitem (v : PyVal) (i : nat) : Result PyVal :=
  match v with
  | PyTuple items | PyList items =>
      match nth_error items i with
      | Some x => Ok x
      | None => Err IndexError
      end
  | PyStr s =>
      match String.get i s with
      | Some c => Ok (PyStr (String c EmptyString))
      | None => Err IndexError
      end
  | PyNone | PyInt _ => Err TypeError
  end.

(** [bytes(ints)]: every item must be in [range(0, 256)]. *)
Fixpoint py_bytes (ints : list Z) : Result (list byte) :=
  match ints with
  | [] => Ok []
  | z :: rest =>
      if ((0 <=? z) && (z <? 256))%Z then
        match Byte.of_N (Z.to_N z), py_bytes rest with
        | Some b, Ok bs => Ok (b :: bs)
        | _, Err e => Err e
        | None, _ => Err ValueError
        end
      else Err ValueError
  end.

(** A well-formed address: a 2-tuple of a string and an integer. *)
Definition well_formed_addr (v : PyVal) : bool :=
  match v with
  | PyTuple [PyStr _; PyInt _] => true
  | _ => false
  end.

(** ** Sockets *)

Inductive SockLevel : Type := SOL_SOCKET | IPPROTO_IP.

Inductive SockOpt : Type :=
| SO_REUSEADDR
| SO_REUSEPORT
| IP_MULTICAST_IF
| IP_ADD_MEMBERSHIP
| IP_MULTICAST_TTL
| IP_MULTICAST_LOOP.

Inductive OptVal : Type :=
| OptInt (z : Z)
| OptBytes (bs : list byte).

(** The calls [create_multicast_sock] makes on the socket module and on the
    socket. *)
Inductive SockCall : Type :=
| socket_AF_INET_SOCK_DGRAM
| setsockopt (level : SockLevel) (opt : SockOpt) (v : OptVal)
| setblocking (flag : bool)
| bind (host : PyVal) (port : PyVal).

(** A socket is known by the calls the operating system accepted on it,
    oldest first; reading its configuration back is a lookup in them. *)
Definition Socket : Type := list SockCall.

Definition SockLevel_eqb (a b : SockLevel) : bool :=
  match a, b with
  | SOL_SOCKET, SOL_SOCKET | IPPROTO_IP, IPPROTO_IP => true
  | _, _ => false
  end.

Definition SockOpt_eqb (a b : SockOpt) : bool :=
  match a, b with
  | SO_REUSEADDR, SO_REUSEADDR | SO_REUSEPORT, SO_REUSEPORT
  | IP_MULTICAST_IF, IP_MULTICAST_IF | IP_ADD_MEMBERSHIP, IP_ADD_MEMBERSHIP
  | IP_MULTICAST_TTL, IP_MULTICAST_TTL | IP_MULTICAST_LOOP, IP_MULTICAST_LOOP => true
  | _, _ => false
  end.

(** The value last set for an option, if any. *)
Fixpoint getsockopt (sock : Socket) (level : SockLevel) (opt : SockOpt) : option OptVal :=
  match sock with
  | [] => None
  | c :: rest =>
      match getsockopt rest level opt with
      | Some v => Some v
      | None =>
          match c with
          | setsockopt l o v =>
              if SockLevel_eqb l level && SockOpt_eqb o opt then Some v else None
          | _ => None
          end
      end
  end.

(** The group memberships joined on the socket, oldest first. *)
Fixpoint memberships (sock : Socket) : list (list byte) :=
  match sock with
  | [] => []
  | setsockopt IPPROTO_IP IP_ADD_MEMBERSHIP (OptBytes mreq) :: rest => mreq :: memberships rest
  | _ :: rest => memberships rest
  end.

(** What [loop.create_datagram_endpoint] is asked to open: an endpoint over
    a prepared socket, or one bound to [local_addr] with [remote_addr] as
    its peer. *)
Inductive Endpoint : Type :=
| over_sock (sock : Socket)
| over_addrs (local_addr remote_addr : PyVal).

(** The asyncio transport; it is known by the endpoint it was opened on. *)
Record Transport : Type := mkTransport { endpoint : Endpoint }.

(** The bind policy and the socket configuration as the specification
    words them, for a host [platform], the packed own and group addresses,
    and the group's host and port; compared below with what
    [create_multicast_sock] does. *)
Definition spec_bind_policy (platform : string) (group_host port : PyVal) : list SockCall :=
  if (platform =? "win32")%string then
    [bind (PyStr "") port]
  else if (platform =? "darwin")%string then
    [setsockopt SOL_SOCKET SO_REUSEPORT (OptInt 1); bind (PyStr "") port]
  else
    [bind group_host port].

Definition spec_multicast_config (platform : string) (own group : list byte)
    (group_host port : PyVal) : Socket :=
  [socket_AF_INET_SOCK_DGRAM;
   setsockopt SOL_SOCKET SO_REUSEADDR (OptInt 1);
   setblocking false;
   setsockopt IPPROTO_IP IP_MULTICAST_IF (OptBytes own);
   setsockopt IPPROTO_IP IP_ADD_MEMBERSHIP (OptBytes (group ++ own));
   setsockopt IPPROTO_IP IP_MULTICAST_TTL (OptInt 2)]
  ++ spec_bind_policy platform group_host port
  ++ [setsockopt IPPROTO_IP IP_MULTICAST_LOOP (OptInt 0)].

(** ** The collaborators outside the module *)

(** The KNX/IP codec ([xknx.knxip.KNXIPFrame]) and the [XKNX] object passed
    to it.  [from_knx xknx raw] stands for [KNXIPFrame(xknx)] followed by
    [from_knx(raw)] and gives the frame or the exception raised;
    [service_type_ident] is [knxipframe.header.service_type_ident] and
    [to_knx] the list of integers [knxipframe.to_knx()] returns. *)
Definition ServiceType : Type := Z.

Class KNXIP : Type := {
  XKNX : Type;
  KNXIPFrame : Type;
  service_type_ident : KNXIPFrame -> ServiceType;
  from_knx : XKNX -> list byte -> Result KNXIPFrame;
  to_knx : KNXIPFrame -> list Z
}.

(** The host: [sys.platform], [socket.inet_aton] ([None] when it raises
    [OSError]), whether the operating system accepts a call on a socket in
    a given configuration, whether the event loop manages to open an
    endpoint, and what a transport answers to [get_extra_info]. *)
Class Host : Type := {
  platform : string;
  inet_aton : string -> option (list byte);
  syscall_ok : Socket -> SockCall -> bool;
  endpoint_ok : Endpoint -> bool;
  get_extra_info : Transport -> string -> PyVal
}.

(** ** The client *)

(** A callable registered as a callback is known by its identity. *)
Definition Handler : Type := nat.

(** [UDPClient.Callback].  The class defines no [__eq__], so two of its
    objects are equal exactly when they are the same object; [cb_id] is
    that identity. *)
Record Callback : Type := mkCallback {
  cb_id : nat;
  callback : Handler;
  service_types : list ServiceType
}.

(** [Callback.__init__]: [service_types or []]. *)
Definition Callback_init (id : nat) (callback : Handler)
    (service_types : option (list ServiceType)) : Callback :=
  mkCallback id callback
    match service_types with
    | None => []
    | Some [] => []
    | Some l => l
    end.

(** [Callback.has_service] *)
Definition has_service (cb : Callback) (service_type : ServiceType) : bool :=
  (List.length (service_types cb) =? 0) || existsb (Z.eqb service_type) (service_types cb).

(** [a == b] for two [Callback] objects. *)
Definition same_object (a b : Callback) : bool := cb_id a =? cb_id b.

(** [list.remove(x)]: drops the first item equal to [x]; [None] stands for
    the [ValueError] raised when there is none. *)
Fixpoint list_remove (x : Callback) (l : list Callback) : option (list Callback) :=
  match l with
  | [] => None
  | y :: rest =>
      if same_object y x then Some rest
      else match list_remove x rest with
           | Some rest' => Some (y :: rest')
           | None => None
           end
  end.

Section UDPClient.

Context {knxip : KNXIP} {host : Host}.

(** [UDPClient]: the attributes [__init__] sets. *)
Record UDPClient : Type := mkUDPClient {
  xknx : XKNX;
  local_addr : PyVal;
  remote_addr : PyVal;
  multicast : bool;
  transport : option Transport;
  callbacks : list Callback
}.

(** The state the methods work on: the client, and the identity the next
    [Callback] object created will get. *)
Record State : Type := mkState {
  self : UDPClient;
  next_id : nat
}.

(** What a method does to the outside world: the records it logs, the
    calls it makes on the codec, on a registered callback, on the socket
    module, on the event loop and on the asyncio transport.  What these
    collaborators do with a call is theirs; a call on the transport is
    recorded and returns. *)
Inductive Event : Type :=
| knx_logger_debug_Sending (knxipframe : KNXIPFrame)
| knx_logger_debug_Received (knxipframe : KNXIPFrame)
| raw_socket_logger_debug_Received (addr : PyVal) (data : list byte)
| logger_exception (e : Exn)
| logger_debug_UNHANDLED (service_type : ServiceType)
| KNXIPFrame_from_knx (raw : list byte)
| call_callback (cb : Callback) (knxipframe : KNXIPFrame)
| sys_call (c : SockCall)
| create_datagram_endpoint (ep : Endpoint)
| transport_sendto (t : Transport) (data : list byte) (addr : option PyVal)
| transport_close (t : Transport)
| transport_get_extra_info (t : Transport) (name : string).

(** How a method ends: it returns, it raises, or the loop it is in has not
    ended within the number of iterations allowed. *)
Inductive Outcome (A : Type) : Type :=
| Ret (a : A)
| Raise (e : Exn)
| OutOfFuel.
Arguments Ret {A} a.
Arguments Raise {A} e.
Arguments OutOfFuel {A}.

(** A method: from a state to its outcome, the state it leaves and the
    events it caused, oldest first. *)
Definition M (A : Type) : Type := State -> Outcome A * State * list Event.

Definition ret {A} (a : A) : M A := fun s => (Ret a, s, []).

Definition raise {A} (e : Exn) : M A := fun s => (Raise e, s, []).

Definition bindM {A B} (m : M A) (k : A -> M B) : M B :=
  fun s =>
    match m s with
    | (Ret a, s1, t1) =>
        match k a s1 with
        | (o, s2, t2) => (o, s2, t1 ++ t2)
        end
    | (Raise e, s1, t1) => (Raise e, s1, t1)
    | (OutOfFuel, s1, t1) => (OutOfFuel, s1, t1)
    end.

Notation "x <- m ;; k" := (bindM m (fun x => k))
  (at level 100, m at next level, right associativity).
Notation "m ;; k" := (bindM m (fun _ => k))
  (at level 100, right associativity).

Definition emit (e : Event) : M unit := fun s => (Ret tt, s, [e]).

Definition get_self : M UDPClient := fun s => (Ret (self s), s, []).

Definition put_self (c : UDPClient) : M unit :=
  fun s => (Ret tt, mkState c (next_id s), []).

Definition lift {A} (r : Result A) : M A :=
  match r with
  | Ok a => ret a
  | Err e => raise e
  end.

(** [try: m except CouldNotParseKNXIP as e: h e] *)
Definition try_except_CouldNotParseKNXIP (m : M unit) (h : Exn -> M unit) : M unit :=
  fun s =>
    match m s with
    | (Raise (CouldNotParseKNXIP msg), s1, t1) =>
        match h (CouldNotParseKNXIP msg) s1 with
        | (o, s2, t2) => (o, s2, t1 ++ t2)
        end
    | r => r
    end.

(** The three components of a run. *)
Definition outcome_of {A} (r : Outcome A * State * list Event) : Outcome A := fst (fst r).
Definition state_of {A} (r : Outcome A * State * list Event) : State := snd (fst r).
Definition trace_of {A} (r : Outcome A * State * list Event) : list Event := snd r.

(** *** Construction *)

(** [UDPClient.__init__] *)
Definition __init__ (xknx : XKNX) (local_addr remote_addr : PyVal) (multicast : bool)
    : Result UDPClient :=
  if negb (isinstance_tuple local_addr) then Err TypeError
  else if negb (isinstance_tuple remote_addr) then Err TypeError
  else Ok (mkUDPClient xknx local_addr remote_addr multicast None []).

(** The state right after a successful construction. *)
Definition new_state (c : UDPClient) : State := mkState c 0.

(** *** Registration *)

(** [UDPClient.register_callback] *)
Definition register_callback (callback : Handler)
    (service_types : option (list ServiceType)) : M Callback :=
  fun s =>
    let service_types :=
      match service_types with
      | None => Some []
      | Some l => Some l
      end in
    let callb := Callback_init (next_id s) callback service_types in
    let c := self s in
    (Ret callb,
     mkState (mkUDPClient (xknx c) (local_addr c) (remote_addr c) (multicast c)
                (transport c) (callbacks c ++ [callb]))
             (S (next_id s)),
     []).

(** [UDPClient.unregister_callback] *)
Definition unregister_callback (callb : Callback) : M unit :=
  fun s =>
    let c := self s in
    match list_remove callb (callbacks c) with
    | Some l =>
        (Ret tt,
         mkState (mkUDPClient (xknx c) (local_addr c) (remote_addr c) (multicast c)
                    (transport c) l)
                 (next_id s),
         [])
    | None => (Raise ValueError, s, [])
    end.

(** *** Sending *)

(** [UDPClient.send] *)
Definition send (knxipframe : KNXIPFrame) : M unit :=
  emit (knx_logger_debug_Sending knxipframe) ;;
  c <- get_self ;;
  match transport c with
  | None => raise (XKNXException "Transport not connected")
  | Some t =>
      if multicast c then
        data <- lift (py_bytes (to_knx knxipframe)) ;;
        emit (transport_sendto t data (Some (remote_addr c)))
      else
        data <- lift (py_bytes (to_knx knxipframe)) ;;
        emit (transport_sendto t data None)
  end.

(** How a call on the asyncio transport ends: [None] when it returns, the
    exception when it raises. *)
Definition call_ends (ends : option Exn) : M unit :=
  match ends with
  | None => ret tt
  | Some e => raise e
  end.

(** [UDPClient.send] again, with the end of [self.transport.sendto(...)]
    left open: [sendto_ends] says how that call ends when it is made (the
    transport of asyncio raises once it was closed, for one).  With a call
    that returns this is [send]. *)
Definition send_with (sendto_ends : option Exn) (knxipframe : KNXIPFrame) : M unit :=
  emit (knx_logger_debug_Sending knxipframe) ;;
  c <- get_self ;;
  match transport c with
  | None => raise (XKNXException "Transport not connected")
  | Some t =>
      if multicast c then
        data <- lift (py_bytes (to_knx knxipframe)) ;;
        emit (transport_sendto t data (Some (remote_addr c))) ;;
        call_ends sendto_ends
      else
        data <- lift (py_bytes (to_knx knxipframe)) ;;
        emit (transport_sendto t data None) ;;
        call_ends sendto_ends
  end.

(** *** The registered callbacks

    A registered callback is code of the caller.  It is called with the
    frame and the client, and what it does to the client it does through
    the client's synchronous methods: it may register and unregister
    callbacks and send frames, and it may raise.  [handler_code] gives, for
    a callable, the frame and the state it is called in, the calls it
    makes, in order; the first one that raises ends it. *)
Inductive Action : Type :=
| do_register_callback (callback : Handler) (service_types : option (list ServiceType))
| do_unregister_callback (callb : Callback)
| do_send (knxipframe : KNXIPFrame)
| do_raise (e : Exn).

Variable handler_code : Handler -> KNXIPFrame -> State -> list Action.

Definition run_action (a : Action) : M unit :=
  match a with
  | do_register_callback callback service_types =>
      _ <- register_callback callback service_types ;; ret tt
  | do_unregister_callback callb => unregister_callback callb
  | do_send knxipframe => send knxipframe
  | do_raise e => raise e
  end.

Fixpoint run_actions (l : list Action) : M unit :=
  match l with
  | [] => ret tt
  | a :: rest => run_action a ;; run_actions rest
  end.

(** [callback.callback(knxipframe, self)] *)
Definition call (cb : Callback) (knxipframe : KNXIPFrame) : M unit :=
  emit (call_callback cb knxipframe) ;;
  fun s => run_actions (handler_code (callback cb) knxipframe s) s.

(** *** Dispatch *)

(** The loop [for callback in self.callbacks] of [handle_knxipframe].  The
    iterator of a Python list keeps an index into the list object and
    reads the list anew at every step, so what a callback does to
    [self.callbacks] is seen by the rest of the loop.  [i] is that index,
    [handled] the flag; the result is the flag when the loop ends. *)
Fixpoint for_callback_in_callbacks (fuel : nat) (knxipframe : KNXIPFrame)
    (i : nat) (handled : bool) : M bool :=
  match fuel with
  | 0 => fun s => (OutOfFuel, s, [])
  | S fuel' =>
      c <- get_self ;;
      match nth_error (callbacks c) i with
      | None => ret handled
      | Some cb =>
          if has_service cb (service_type_ident knxipframe) then
            call cb knxipframe ;;
            for_callback_in_callbacks fuel' knxipframe (S i) true
          else
            for_callback_in_callbacks fuel' knxipframe (S i) handled
      end
  end.

(** [UDPClient.handle_knxipframe] *)
Definition handle_knxipframe (fuel : nat) (knxipframe : KNXIPFrame) : M unit :=
  handled <- for_callback_in_callbacks fuel knxipframe 0 false ;;
  if negb handled then emit (logger_debug_UNHANDLED (service_type_ident knxipframe))
  else ret tt.

(** *** The receive path *)

(** [UDPClient.data_received_callback] *)
Definition data_received_callback (fuel : nat) (raw : list byte) : M unit :=
  match raw with
  | [] => ret tt
  | _ :: _ =>
      try_except_CouldNotParseKNXIP
        (c <- get_self ;;
         emit (KNXIPFrame_from_knx raw) ;;
         knxipframe <- lift (from_knx (xknx c) raw) ;;
         emit (knx_logger_debug_Received knxipframe) ;;
         handle_knxipframe fuel knxipframe)
        (fun couldnotparseknxip => emit (logger_exception couldnotparseknxip))
  end.

(** [UDPClientFactory.datagram_received], for the factory [connect] builds:
    its [data_received_callback] is the client's method of that name. *)
Definition datagram_received (fuel : nat) (data : list byte) (addr : PyVal) : M unit :=
  emit (raw_socket_logger_debug_Received addr data) ;;
  data_received_callback fuel data.

(** *** The multicast socket *)

(** A call on the socket: it is recorded, and the socket has it in its
    configuration when the operating system accepts it; [OSError]
    otherwise. *)
Definition sys (sock : Socket) (c : SockCall) : M Socket :=
  emit (sys_call c) ;;
  if syscall_ok sock c then ret (sock ++ [c]) else raise OSError.

(** Whether the operating system accepts the calls [calls], one after the
    other, on a socket that has the configuration [sock]. *)
Fixpoint os_accepts (sock : Socket) (calls : list SockCall) : bool :=
  match calls with
  | [] => true
  | c :: rest => syscall_ok sock c && os_accepts (sock ++ [c]) rest
  end.

(** [socket.inet_aton(v)] *)
Definition socket_inet_aton (v : PyVal) : M (list byte) :=
  match v with
  | PyStr s =>
      match inet_aton s with
      | Some packed => ret packed
      | None => raise OSError
      end
  | _ => raise TypeError
  end.

(** The branch on [platform] of [create_multicast_sock]. *)
Definition bind_by_platform (sock : Socket) (remote_addr : PyVal) : M Socket :=
  if (platform =? "win32")%string then
    port <- lift (py_getitem remote_addr 1) ;;
    sys sock (bind (PyStr "") port)
  else if (platform =? "darwin")%string then
    sock <- sys sock (setsockopt SOL_SOCKET SO_REUSEPORT (OptInt 1)) ;;
    port <- lift (py_getitem remote_addr 1) ;;
    sys sock (bind (PyStr "") port)
  else
    group <- lift (py_getitem remote_addr 0) ;;
    port <- lift (py_getitem remote_addr 1) ;;
    sys sock (bind group port).

(** [UDPClient.create_multicast_sock] *)
Definition create_multicast_sock (own_ip remote_addr : PyVal) : M Socket :=
  sock <- sys [] socket_AF_INET_SOCK_DGRAM ;;
  sock <- sys sock (setsockopt SOL_SOCKET SO_REUSEADDR (OptInt 1)) ;;
  sock <- sys sock (setblocking false) ;;
  own <- socket_inet_aton own_ip ;;
  sock <- sys sock (setsockopt IPPROTO_IP IP_MULTICAST_IF (OptBytes own)) ;;
  group_ip <- lift (py_getitem remote_addr 0) ;;
  group <- socket_inet_aton group_ip ;;
  own <- socket_inet_aton own_ip ;;
  sock <- sys sock (setsockopt IPPROTO_IP IP_ADD_MEMBERSHIP (OptBytes (group ++ own))) ;;
  sock <- sys sock (setsockopt IPPROTO_IP IP_MULTICAST_TTL (OptInt 2)) ;;
  sock <- bind_by_platform sock remote_addr ;;
  sock <- sys sock (setsockopt IPPROTO_IP IP_MULTICAST_LOOP (OptInt 0)) ;;
  ret sock.

(** *** Connect, introspection, stop *)

(** [await loop.create_datagram_endpoint(...)] *)
Definition loop_create_datagram_endpoint (ep : Endpoint) : M Transport :=
  emit (create_datagram_endpoint ep) ;;
  if endpoint_ok ep then ret (mkTransport ep) else raise OSError.

(** [self.transport = transport] *)
Definition set_transport (t : Transport) : M unit :=
  c <- get_self ;;
  put_self (mkUDPClient (xknx c) (local_addr c) (remote_addr c) (multicast c)
              (Some t) (callbacks c)).

(** The state with the client's transport set, as [set_transport] leaves
    it. *)
Definition with_transport (t : Transport) (s : State) : State :=
  mkState (mkUDPClient (xknx (self s)) (local_addr (self s)) (remote_addr (self s))
             (multicast (self s)) (Some t) (callbacks (self s)))
          (next_id s).

(** [UDPClient.connect], run to its end without another task in between. *)
Definition connect : M unit :=
  c <- get_self ;;
  _ <- lift (py_getitem (local_addr c) 0) ;;
  if multicast c then
    own_ip <- lift (py_getitem (local_addr c) 0) ;;
    sock <- create_multicast_sock own_ip (remote_addr c) ;;
    t <- loop_create_datagram_endpoint (over_sock sock) ;;
    set_transport t
  else
    t <- loop_create_datagram_endpoint (over_addrs (local_addr c) (remote_addr c)) ;;
    set_transport t.

(** [UDPClient.getsockname] *)
Definition getsockname : M PyVal :=
  c <- get_self ;;
  match transport c with
  | None => raise AttributeError
  | Some t =>
      emit (transport_get_extra_info t "sockname") ;;
      ret (get_extra_info t "sockname")
  end.

(** [UDPClient.getremote] *)
Definition getremote : M PyVal :=
  c <- get_self ;;
  match transport c with
  | None => raise AttributeError
  | Some t =>
      emit (transport_get_extra_info t "peername") ;;
      ret (get_extra_info t "peername")
  end.

(** [UDPClient.stop] *)
Definition stop : M unit :=
  c <- get_self ;;
  match transport c with
  | None => raise AttributeError
  | Some t => emit (transport_close t)
  end.

(** *** A caller's use of a client *)

(** The calls a caller makes on a client. *)
Inductive ApiCall : Type :=
| api_register_callback (callback : Handler) (service_types : option (list ServiceType))
| api_unregister_callback (callb : Callback)
| api_data_received_callback (raw : list byte)
| api_handle_knxipframe (knxipframe : KNXIPFrame)
| api_connect
| api_send (knxipframe : KNXIPFrame)
| api_getsockname
| api_getremote
| api_stop.

Definition run_call (fuel : nat) (c : ApiCall) : M unit :=
  match c with
  | api_register_callback callback service_types =>
      _ <- register_callback callback service_types ;; ret tt
  | api_unregister_callback callb => unregister_callback callb
  | api_data_received_callback raw => data_received_callback fuel raw
  | api_handle_knxipframe knxipframe => handle_knxipframe fuel knxipframe
  | api_connect => connect
  | api_send knxipframe => send knxipframe
  | api_getsockname => _ <- getsockname ;; ret tt
  | api_getremote => _ <- getremote ;; ret tt
  | api_stop => stop
  end.

(** A sequence of calls by a caller who catches whatever a call raises and
    goes on; a call whose loop does not end within [fuel] iterations ends
    the sequence. *)
Fixpoint run_calls (fuel : nat) (l : list ApiCall) (s : State) : State * list Event :=
  match l with
  | [] => (s, [])
  | c :: rest =>
      match run_call fuel c s with
      | (OutOfFuel, s1, t1) => (s1, t1)
      | (_, s1, t1) =>
          match run_calls fuel rest s1 with
          | (s2, t2) => (s2, t1 ++ t2)
          end
      end
  end.

(** *** What is observed of a run *)

(** The callbacks called in a trace, oldest first, each with the frame it
    was called with. *)
Fixpoint invoked (t : list Event) : list (Callback * KNXIPFrame) :=
  match t with
  | [] => []
  | call_callback cb knxipframe :: rest => (cb, knxipframe) :: invoked rest
  | _ :: rest => invoked rest
  end.

(** The service types logged as unhandled in a trace. *)
Fixpoint unhandled (t : list Event) : list ServiceType :=
  match t with
  | [] => []
  | logger_debug_UNHANDLED service_type :: rest => service_type :: unhandled rest
  | _ :: rest => unhandled rest
  end.

(** The registrations of a list that listen for a service type, in the
    order of the list. *)
Definition listening (service_type : ServiceType) (l : list Callback) : list Callback :=
  filter (fun cb => has_service cb service_type) l.

(** The identities of the registered [Callback] objects. *)
Definition ids (s : State) : list nat := map cb_id (callbacks (self s)).

(** Every state a client gets into is well-formed: no [Callback] object is
    in the list twice, and the identities in use are below the next one. *)
Definition wf (s : State) : Prop :=
  NoDup (ids s) /\ Forall (fun id => id < next_id s) (ids s).

(** A [Callback] object that exists and is not in the list. *)
Definition absent (id : nat) (s : State) : Prop :=
  ~ In id (ids s) /\ id < next_id s.

(** A method that leaves the registrations alone and calls no callback. *)
Definition harmless {A} (m : M A) : Prop :=
  forall s,
    callbacks (self (state_of (m s))) = callbacks (self s) /\
    next_id (state_of (m s)) = next_id s /\
    invoked (trace_of (m s)) = [].


End UDPClient.

Arguments Ret {A} a.
Arguments Raise {A} e.
Arguments OutOfFuel {A}.

(** ** The protocol object handed to the event loop *)

Section Factory.

Context {knxip : KNXIP}.
Variable handler_code : Handler -> KNXIPFrame -> State -> list Action.

(** What the methods of [UDPClientFactory] log through [logger]. *)
Inductive FactoryLog : Type :=
| logger_warning_Error_received (exc : Exn)
| logger_info_Closing_transport.

(** [UDPClient.UDPClientFactory]: the four attributes [__init__] sets, and
    the names of the attributes set on the object from outside after it
    was constructed.  [data_received_callback] is any callable taking the
    bytes. *)
Record UDPClientFactory : Type := mkUDPClientFactory {
  own_ip : PyVal;
  factory_multicast : bool;
  factory_transport : option Transport;
  factory_data_received_callback : option (list byte -> M unit);
  set_from_outside : list string
}.

(** [UDPClientFactory.__init__] *)
Definition UDPClientFactory_init (own_ip : PyVal) (multicast : bool)
    (data_received_callback : option (list byte -> M unit)) : UDPClientFactory :=
  mkUDPClientFactory own_ip multicast None data_received_callback [].

(** The names the class body and [__init__] define on a factory. *)
Definition UDPClientFactory_names : list string :=
  ["own_ip"; "multicast"; "transport"; "data_received_callback";
   "connection_made"; "datagram_received"; "error_received"; "connection_lost"]%string.

(** [hasattr(self, name)], for the names above and those set from
    outside. *)
Definition hasattr (f : UDPClientFactory) (name : string) : bool :=
  existsb (String.eqb name) (UDPClientFactory_names ++ set_from_outside f).

(** [UDPClientFactory.connection_made] *)
Definition connection_made (f : UDPClientFactory) (transport : Transport) : UDPClientFactory :=
  mkUDPClientFactory (own_ip f) (factory_multicast f) (Some transport)
    (factory_data_received_callback f) (set_from_outside f).

(** [UDPClientFactory.datagram_received] *)
Definition UDPClientFactory_datagram_received (f : UDPClientFactory)
    (data : list byte) (addr : PyVal) : M unit :=
  bindM (emit (raw_socket_logger_debug_Received addr data))
    (fun _ =>
       match factory_data_received_callback f with
       | Some data_received_callback => data_received_callback data
       | None => ret tt
       end).

(** [UDPClientFactory.error_received] *)
Definition error_received (f : UDPClientFactory) (exc : Exn) : list FactoryLog :=
  if hasattr f "xknx" then [logger_warning_Error_received exc] else [].

(** [UDPClientFactory.connection_lost]; [exc] is [None] when the
    connection was closed regularly. *)
Definition connection_lost (f : UDPClientFactory) (exc : option Exn) : list FactoryLog :=
  if hasattr f "xknx" &&
     match exc with
     | Some _ => true
     | None => false
     end
  then [logger_info_Closing_transport] else [].

(** The factory [connect] builds for a client: on [self.local_addr[0]],
    with the client's [multicast] and the client's
    [data_received_callback] as the callback. *)
Definition factory_of_connect (fuel : nat) (c : UDPClient) : Result UDPClientFactory :=
  match py_getitem (local_addr c) 0 with
  | Ok own_ip =>
      Ok (UDPClientFactory_init own_ip (multicast c)
            (Some (data_received_callback handler_code fuel)))
  | Err e => Err e
  end.

End Factory.

(** ** What the methods keep *)

Section Keeping.

Context {knxip : KNXIP}.

(** A method that leaves [F] of the state as it was and causes events of
    the kind [P] only, however it ends. *)
Definition keeps {A X : Type} (F : State -> X) (P : Event -> bool) (m : M A) : Prop :=
  forall s, F (state_of (m s)) = F s /\ forallb P (trace_of (m s)) = true.

(** What [__init__] fixes: the [XKNX] object, the two addresses and the
    multicast flag. *)
Definition configuration (s : State) : XKNX * PyVal * PyVal * bool :=
  (xknx (self s), local_addr (self s), remote_addr (self s), multicast (self s)).

(** The configuration together with the transport. *)
Definition connection (s : State) : XKNX * PyVal * PyVal * bool * option Transport :=
  (configuration s, transport (self s)).

(** The events of setting a connection up: calls on the socket module and
    the request to the event loop. *)
Definition setup_event (e : Event) : bool :=
  match e with
  | sys_call _ | create_datagram_endpoint _ => true
  | _ => false
  end.

End Keeping.

Section Configuring.

Context {knxip : KNXIP} {host : Host}.

(** The calls of a list made on a socket one after the other, up to the
    first the operating system refuses. *)
Fixpoint configure (sock : Socket) (calls : list SockCall) : M Socket :=
  match calls with
  | [] => ret sock
  | c :: rest => bindM (sys sock c) (fun sock' => configure sock' rest)
  end.

End Configuring.

(** ** Test doubles

    A small codec, a host and some callbacks, to run the client on. *)
Module Double.

(** A frame: its service type and its body. *)
Record Frame : Type := mkFrame {
  service_type : ServiceType;
  body : list byte
}.

Definition Z_of_byte (b : byte) : Z := Z.of_N (Byte.to_N b).

(** The six-byte KNX/IP header (header length 6, version 0x10, the service
    type and the total length, both big-endian) followed by the body. *)
Definition decode_frame (raw : list byte) : Result Frame :=
  match raw with
  | x06 :: x10 :: st_hi :: st_lo :: len_hi :: len_lo :: body =>
      if (256 * Z_of_byte len_hi + Z_of_byte len_lo =? 6 + Z.of_nat (List.length body))%Z
      then Ok (mkFrame (256 * Z_of_byte st_hi + Z_of_byte st_lo)%Z body)
      else Err (CouldNotParseKNXIP "wrong total length")
  | _ => Err (CouldNotParseKNXIP "wrong header")
  end.

Definition encode_frame (f : Frame) : list Z :=
  let len := (6 + Z.of_nat (List.length (body f)))%Z in
  [6; 16; service_type f / 256; service_type f mod 256; len / 256; len mod 256]%Z
    ++ map Z_of_byte (body f).

#[export] Instance codec : KNXIP := {|
  XKNX := unit;
  KNXIPFrame := Frame;
  service_type_ident := service_type;
  from_knx := fun _ => decode_frame;
  to_knx := encode_frame
|}.

(** A Linux host that knows three addresses, accepts every call on a socket
    and opens every endpoint. *)
Definition inet_aton_table (s : string) : option (list byte) :=
  if (s =? "0.0.0.0")%string then Some [x00; x00; x00; x00]
  else if (s =? "192.168.1.10")%string then Some [xc0; xa8; x01; x0a]
  else if (s =? "224.0.23.12")%string then Some [xe0; x00; x17; x0c]
  else None.

Definition extra_info (t : Transport) (name : string) : PyVal :=
  match endpoint t with
  | over_addrs l r => if (name =? "sockname")%string then l else r
  | over_sock _ => if (name =? "sockname")%string then PyTuple [PyStr "0.0.0.0"; PyInt 3671%Z] else PyNone
  end.

#[export] Instance linux : Host := {|
  platform := "linux";
  inet_aton := inet_aton_table;
  syscall_ok := fun _ _ => true;
  endpoint_ok := fun _ => true;
  get_extra_info := extra_info
|}.

(** The [XKNX] object of the examples. *)
Definition the_xknx : XKNX := tt.

(** Callbacks that only look at the frame. *)
Definition quiet : Handler -> KNXIPFrame -> State -> list Action :=
  fun _ _ _ => [].

(** Callable 7 is a one-shot callback: when called it unregisters the
    registration it was registered under.  The others are quiet. *)
Definition one_shot : Handler -> KNXIPFrame -> State -> list Action :=
  fun h _ s =>
    if h =? 7 then
      match find (fun cb => callback cb =? h) (callbacks (self s)) with
      | Some cb => [do_unregister_callback cb]
      | None => []
      end
    else [].

(** Callable 9 raises; the others are quiet. *)
Definition faulty : Handler -> KNXIPFrame -> State -> list Action :=
  fun h _ _ => if h =? 9 then [do_raise ValueError] else [].

(** The routing group of KNX/IP and two local addresses. *)
Definition routing_group : PyVal := PyTuple [PyStr "224.0.23.12"; PyInt 3671%Z].
Definition any_local : PyVal := PyTuple [PyStr "0.0.0.0"; PyInt 0%Z].
Definition lan_local : PyVal := PyTuple [PyStr "192.168.1.10"; PyInt 0%Z].

(** A unicast and a multicast client, as constructed. *)
Definition unicast_client : UDPClient :=
  mkUDPClient the_xknx lan_local (PyTuple [PyStr "192.168.1.20"; PyInt 3671%Z]) false None [].
Definition multicast_client : UDPClient :=
  mkUDPClient the_xknx any_local routing_group true None [].

(** Two frames: a search request (0x0201) and a description request
    (0x0203), and the datagrams that carry them. *)
Definition search_request : KNXIPFrame := mkFrame 513%Z [].
Definition description_request : KNXIPFrame := mkFrame 515%Z [].
Definition search_request_raw : list byte := [x06; x10; x02; x01; x00; x06].
Definition description_request_raw : list byte := [x06; x10; x02; x03; x00; x06].

(** The unicast client connected, and then stopped; the multicast client
    connected. *)
Definition connected_unicast : State := state_of (connect (new_state unicast_client)).
Definition stopped_unicast : State := state_of (stop connected_unicast).
Definition connected_multicast : State := state_of (connect (new_state multicast_client)).

(** The connected multicast client with one callback registered for search
    requests, the handle [register_callback] returned for it, and the client
    after that handle was unregistered. *)
Definition search_listener : State :=
  state_of (register_callback 1 (Some [513%Z]) connected_multicast).
Definition search_handle : Callback := mkCallback 0 1 [513%Z].
Definition search_listener_gone : State :=
  state_of (unregister_callback search_handle search_listener).

(** The connected multicast client with two registrations without a
    filter, of callable 7 first and of callable 1 second, and the two
    handles. *)
Definition two_listeners : State :=
  state_of (register_callback 1 None
              (state_of (register_callback 7 None connected_multicast))).
Definition first_handle : Callback := mkCallback 0 7 [].
Definition second_handle : Callback := mkCallback 1 1 [].

(** The connected multicast client with callable 9 registered without a
    filter, and the handle. *)
Definition faulty_listener : State :=
  state_of (register_callback 9 None connected_multicast).
Definition faulty_handle : Callback := mkCallback 0 9 [].

(** The same client with callable 9 registered first and callable 1
    second, both without a filter. *)
Definition faulty_then_quiet : State :=
  state_of (register_callback 1 None faulty_listener).

End Double.

(** More doubles. *)
Module Cases.

Import Double.

(** Every callable, when called, registers itself once more, without a
    filter. *)
Definition echo : Handler -> KNXIPFrame -> State -> list Action :=
  fun h _ _ => [do_register_callback h None].

(** Callable 5 raises [CouldNotParseKNXIP]; the others are quiet. *)
Definition confused : Handler -> KNXIPFrame -> State -> list Action :=
  fun h _ _ => if h =? 5 then [do_raise (CouldNotParseKNXIP "not for me")] else [].

(** A client that [__init__] accepts although its [local_addr] is the
    empty tuple. *)
Definition nowhere_client : UDPClient :=
  mkUDPClient Double.the_xknx (PyTuple []) Double.routing_group false None [].

(** The connected multicast client with callable 5 registered without a
    filter. *)
Definition confused_listener : State :=
  state_of (register_callback 5 None Double.connected_multicast).



(** A Linux host like the one above, except that joining a multicast group
    is refused. *)
Definition no_membership : Host := {|
  platform := "linux";
  inet_aton := inet_aton_table;
  syscall_ok := fun _ c =>
    match c with
    | setsockopt IPPROTO_IP IP_ADD_MEMBERSHIP _ => false
    | _ => true
    end;
  endpoint_ok := fun _ => true;
  get_extra_info := extra_info
|}.

End Cases.

(** ** Properties *)

Section Construction.

Context {knxip : KNXIP}.

(** What [__init__] does, in one equation. *)
Lemma init_eq (x : XKNX) (l r : PyVal) (m : bool) :
  __init__ x l r m =
  if isinstance_tuple l && isinstance_tuple r
  then Ok (mkUDPClient x l r m None [])
  else Err TypeError.
Proof.
  unfold __init__.
  destruct (isinstance_tuple l), (isinstance_tuple r); reflexivity.
Qed.

Lemma well_formed_is_tuple (v : PyVal) :
  well_formed_addr v = true -> isinstance_tuple v = true.
Proof.
  destruct v; simpl; intros H; try discriminate; reflexivity.
Qed.

(** C4, as amended.  Construction raises exactly when [local_addr] or
    [remote_addr] is not a tuple, and what it raises is [TypeError]; a
    tuple of any length and with items of any type is accepted.  So
    construction never raises when both arguments are well-formed
    (host: string, port: integer) 2-tuples, and the client it returns holds
    the two addresses as given, has no transport and no registration. *)
Theorem init_raises_iff_not_a_tuple (x : XKNX) (l r : PyVal) (m : bool) :
  (__init__ x l r m = Err TypeError <->
   isinstance_tuple l = false \/ isinstance_tuple r = false) /\
  (__init__ x l r m = Ok (mkUDPClient x l r m None []) <->
   isinstance_tuple l = true /\ isinstance_tuple r = true) /\
  (well_formed_addr l = true -> well_formed_addr r = true ->
   __init__ x l r m = Ok (mkUDPClient x l r m None [])).
Proof.
  rewrite init_eq.
  split; [|split].
  - destruct (isinstance_tuple l), (isinstance_tuple r); simpl;
      split; intros H; try discriminate; auto; destruct H; discriminate.
  - destruct (isinstance_tuple l), (isinstance_tuple r); simpl;
      split; intros H; try discriminate; auto; destruct H; discriminate.
  - intros Hl Hr.
    rewrite (well_formed_is_tuple l Hl), (well_formed_is_tuple r Hr).
    reflexivity.
Qed.

End Construction.

(** C4, as stated, fails: a 1-tuple is not a well-formed address, and the
    constructor takes it. *)
Lemma init_accepts_a_1_tuple :
  well_formed_addr (PyTuple [PyStr "192.168.1.10"]) = false /\
  __init__ Double.the_xknx (PyTuple [PyStr "192.168.1.10"]) Double.routing_group false =
  Ok (mkUDPClient Double.the_xknx
        (PyTuple [PyStr "192.168.1.10"]) Double.routing_group false None []).
Proof. split; reflexivity. Qed.

(** The amended C4 at the routing group. *)
Lemma init_raises_iff_not_a_tuple_witness :
  __init__ Double.the_xknx Double.any_local Double.routing_group true =
  Ok Double.multicast_client.
Proof.
  apply (init_raises_iff_not_a_tuple Double.the_xknx
           Double.any_local Double.routing_group true); reflexivity.
Defined.

Section Send.

Context {knxip : KNXIP} {host : Host}.

(** [send] in one equation. *)
Lemma send_eq (f : KNXIPFrame) (s : State) :
  send f s =
  match transport (self s) with
  | None =>
      (Raise (XKNXException "Transport not connected"), s, [knx_logger_debug_Sending f])
  | Some t =>
      match py_bytes (to_knx f) with
      | Ok data =>
          (Ret tt, s,
           [knx_logger_debug_Sending f;
            transport_sendto t data
              (if multicast (self s) then Some (remote_addr (self s)) else None)])
      | Err e => (Raise e, s, [knx_logger_debug_Sending f])
      end
  end.
Proof.
  unfold send, bindM, emit, get_self, raise, lift, ret; simpl.
  destruct (transport (self s)) as [t|]; [|reflexivity].
  destruct (multicast (self s)); simpl;
    destruct (py_bytes (to_knx f)); reflexivity.
Qed.

(** [bytes(...)] raises nothing but [ValueError]. *)
Lemma py_bytes_error (ints : list Z) (e : Exn) :
  py_bytes ints = Err e -> e = ValueError.
Proof.
  induction ints as [|z rest IH]; simpl; [discriminate|].
  destruct ((0 <=? z)%Z && (z <? 256)%Z); [|intros H; congruence].
  destruct (Byte.of_N (Z.to_N z)); destruct (py_bytes rest);
    intros H; try discriminate; try (injection H as <-; auto); congruence.
Qed.

Lemma send_keeps_state (f : KNXIPFrame) (s : State) : state_of (send f s) = s.
Proof.
  rewrite send_eq.
  destruct (transport (self s)); [|reflexivity].
  destruct (py_bytes (to_knx f)); reflexivity.
Qed.

Lemma stop_eq (s : State) :
  stop s =
  match transport (self s) with
  | None => (Raise AttributeError, s, [])
  | Some t => (Ret tt, s, [transport_close t])
  end.
Proof.
  unfold stop, bindM, get_self, raise, emit; simpl.
  destruct (transport (self s)); reflexivity.
Qed.

Lemma getsockname_eq (s : State) :
  getsockname s =
  match transport (self s) with
  | None => (Raise AttributeError, s, [])
  | Some t =>
      (Ret (get_extra_info t "sockname"), s, [transport_get_extra_info t "sockname"])
  end.
Proof.
  unfold getsockname, bindM, get_self, raise, emit, ret; simpl.
  destruct (transport (self s)); reflexivity.
Qed.

Lemma getremote_eq (s : State) :
  getremote s =
  match transport (self s) with
  | None => (Raise AttributeError, s, [])
  | Some t =>
      (Ret (get_extra_info t "peername"), s, [transport_get_extra_info t "peername"])
  end.
Proof.
  unfold getremote, bindM, get_self, raise, emit, ret; simpl.
  destruct (transport (self s)); reflexivity.
Qed.

(** C1, as amended.  [send] fails with the transport-not-connected error
    ([XKNXException("Transport not connected")]) exactly when the client's
    [transport] is [None], that is before [connect] has completed; it then
    has logged the frame and done nothing else.  In no case does [send]
    change the client, so its other operations remain usable afterwards.
    [stop] does not change the client either: the transport it closes stays
    in place, and a later [send] passes the guard. *)
Theorem send_guard (f : KNXIPFrame) (s : State) :
  (transport (self s) = None ->
   send f s =
   (Raise (XKNXException "Transport not connected"), s, [knx_logger_debug_Sending f])) /\
  (outcome_of (send f s) = Raise (XKNXException "Transport not connected") ->
   transport (self s) = None) /\
  state_of (send f s) = s /\
  state_of (stop s) = s.
Proof.
  split; [|split; [|split]].
  - intros H. rewrite send_eq, H. reflexivity.
  - rewrite send_eq.
    destruct (transport (self s)) as [t|]; [|reflexivity].
    destruct (py_bytes (to_knx f)) as [data|e] eqn:E; unfold outcome_of; simpl.
    + discriminate.
    + apply py_bytes_error in E. subst e. discriminate.
  - apply send_keeps_state.
  - rewrite stop_eq. destruct (transport (self s)); reflexivity.
Qed.

(** C10.  On a client whose [transport] is [None], [stop], [getsockname]
    and [getremote] each raise [AttributeError], the failure of reading an
    attribute of [None]: none of them returns a value or raises the
    transport-not-connected error.  [send] is the one that tests for
    [None], and raises the transport-not-connected error.  The client is
    left as it was by all four. *)
Theorem unconnected_dereferences_None (f : KNXIPFrame) (s : State) :
  transport (self s) = None ->
  stop s = (Raise AttributeError, s, []) /\
  getsockname s = (Raise AttributeError, s, []) /\
  getremote s = (Raise AttributeError, s, []) /\
  send f s =
  (Raise (XKNXException "Transport not connected"), s, [knx_logger_debug_Sending f]).
Proof.
  intros H.
  rewrite stop_eq, getsockname_eq, getremote_eq, send_eq, H.
  repeat split.
Qed.

End Send.

(** C1, as stated, fails: after [connect] and [stop], [send] does not raise;
    it hands the datagram to the transport that was closed. *)
Lemma send_after_stop_is_not_refused :
  outcome_of (connect (host := Double.linux) (new_state Double.unicast_client)) = Ret tt /\
  outcome_of (stop Double.connected_unicast) = Ret tt /\
  send Double.search_request Double.stopped_unicast =
  (Ret tt, Double.stopped_unicast,
   [knx_logger_debug_Sending Double.search_request;
    transport_sendto
      (mkTransport (over_addrs Double.lan_local (PyTuple [PyStr "192.168.1.20"; PyInt 3671%Z])))
      Double.search_request_raw None]).
Proof. repeat split. Qed.

(** The amended C1 on a client that was never connected. *)
Lemma send_guard_witness :
  send Double.search_request (new_state Double.unicast_client) =
  (Raise (XKNXException "Transport not connected"), new_state Double.unicast_client,
   [knx_logger_debug_Sending Double.search_request]).
Proof.
  apply (send_guard Double.search_request
           (new_state Double.unicast_client)).
  reflexivity.
Defined.

(** C10 on a client that was never connected. *)
Lemma unconnected_dereferences_None_witness :
  stop (new_state Double.multicast_client) =
    (Raise AttributeError, new_state Double.multicast_client, []) /\
  getsockname (host := Double.linux) (new_state Double.multicast_client) =
    (Raise AttributeError, new_state Double.multicast_client, []) /\
  getremote (host := Double.linux) (new_state Double.multicast_client) =
    (Raise AttributeError, new_state Double.multicast_client, []) /\
  send Double.description_request (new_state Double.multicast_client) =
    (Raise (XKNXException "Transport not connected"), new_state Double.multicast_client,
     [knx_logger_debug_Sending Double.description_request]).
Proof.
  apply (unconnected_dereferences_None (host := Double.linux) Double.description_request
           (new_state Double.multicast_client)).
  reflexivity.
Defined.

Section Connect.

Context {knxip : KNXIP} {host : Host}.

(** A sequence returns only if its first part returned. *)
Lemma bindM_Ret {A B} (m : M A) (k : A -> M B) (s s' : State) (b : B) (t : list Event) :
  bindM m k s = (Ret b, s', t) ->
  exists a s1 t1 t2,
    m s = (Ret a, s1, t1) /\ k a s1 = (Ret b, s', t2) /\ t = t1 ++ t2.
Proof.
  unfold bindM.
  destruct (m s) as [[[a| |] s1] t1]; try discriminate.
  destruct (k a s1) as [[o s2] t2] eqn:K.
  intros H. injection H as -> -> <-.
  exists a, s1, t1, t2. auto.
Qed.

Lemma sys_Ret (sock sock' : Socket) (c : SockCall) (s s' : State) (t : list Event) :
  sys sock c s = (Ret sock', s', t) ->
  syscall_ok sock c = true /\ sock' = sock ++ [c] /\ s' = s /\ t = [sys_call c].
Proof.
  unfold sys, bindM, emit, ret, raise.
  destruct (syscall_ok sock c); simpl; intros H; [|discriminate].
  injection H as <- <- <-. auto.
Qed.

Lemma socket_inet_aton_Ret (v : PyVal) (packed : list byte) (s s' : State) (t : list Event) :
  socket_inet_aton v s = (Ret packed, s', t) ->
  exists str, v = PyStr str /\ inet_aton str = Some packed /\ s' = s /\ t = [].
Proof.
  unfold socket_inet_aton, ret, raise.
  destruct v as [| |str| |]; try discriminate.
  destruct (inet_aton str) as [p|] eqn:E; [|discriminate].
  intros H. injection H as <- <- <-. exists str. auto.
Qed.

Lemma lift_Ret {A} (r : Result A) (a : A) (s s' : State) (t : list Event) :
  lift r s = (Ret a, s', t) -> r = Ok a /\ s' = s /\ t = [].
Proof.
  destruct r; unfold lift, ret, raise; [|discriminate].
  intros H. injection H as <- <- <-. auto.
Qed.

Lemma ret_Ret {A} (a a' : A) (s s' : State) (t : list Event) :
  ret a s = (Ret a', s', t) -> a' = a /\ s' = s /\ t = [].
Proof. unfold ret. intros H. injection H as <- <- <-. auto. Qed.

(** Taking a successful run apart, step by step. *)
Ltac take_apart :=
  repeat match goal with
  | H : bindM _ _ _ = (Ret _, _, _) |- _ =>
      apply bindM_Ret in H; destruct H as (? & ? & ? & ? & ? & ? & ?)
  | H : sys _ _ _ = (Ret _, _, _) |- _ =>
      apply sys_Ret in H; destruct H as (? & ? & ? & ?)
  | H : socket_inet_aton _ _ = (Ret _, _, _) |- _ =>
      apply socket_inet_aton_Ret in H; destruct H as (? & ? & ? & ? & ?)
  | H : lift _ _ = (Ret _, _, _) |- _ =>
      apply lift_Ret in H; destruct H as (? & ? & ?)
  | H : ret _ _ = (Ret _, _, _) |- _ =>
      apply ret_Ret in H; destruct H as (? & ? & ?)
  end; subst.

(** The platform branch does what the specification's bind policy says. *)
Lemma bind_by_platform_Ret (sock sock' : Socket) (remote_addr : PyVal)
    (s s' : State) (t : list Event) :
  bind_by_platform sock remote_addr s = (Ret sock', s', t) ->
  forall group_host, py_getitem remote_addr 0 = Ok group_host ->
  exists port,
    py_getitem remote_addr 1 = Ok port /\
    sock' = sock ++ spec_bind_policy platform group_host port /\
    s' = s /\ t = map sys_call (spec_bind_policy platform group_host port).
Proof.
  unfold bind_by_platform, spec_bind_policy.
  intros H group_host Hg.
  destruct (platform =? "win32")%string; [|destruct (platform =? "darwin")%string];
    take_apart.
  - eexists; repeat split; eauto.
  - eexists; repeat split; eauto. now rewrite <- app_assoc.
  - match goal with
    | H : py_getitem remote_addr 0 = Ok ?g |- _ =>
        rewrite Hg in H; injection H as <-
    end.
    eexists; repeat split; eauto.
Qed.

(** When [create_multicast_sock] returns, the socket has the configuration
    the specification lists, in that order, and nothing else was called. *)
Lemma create_multicast_sock_Ret (own_ip remote_addr : PyVal) (sock : Socket)
    (s s' : State) (t : list Event) :
  create_multicast_sock own_ip remote_addr s = (Ret sock, s', t) ->
  exists own_str group_str port own group,
    own_ip = PyStr own_str /\
    py_getitem remote_addr 0 = Ok (PyStr group_str) /\
    py_getitem remote_addr 1 = Ok port /\
    inet_aton own_str = Some own /\
    inet_aton group_str = Some group /\
    sock = spec_multicast_config platform own group (PyStr group_str) port /\
    s' = s /\ t = map sys_call sock.
Proof.
  unfold create_multicast_sock. intros H.
  take_apart.
  match goal with
  | H : bind_by_platform _ _ _ = _ |- _ =>
      eapply bind_by_platform_Ret in H; [|eassumption];
      destruct H as (port & Hp & -> & -> & ->)
  end.
  match goal with
  | H1 : PyStr ?a = PyStr ?b |- _ => injection H1 as <-
  end.
  match goal with
  | H1 : inet_aton ?a = Some ?x, H2 : inet_aton ?a = Some ?y |- _ =>
      rewrite H1 in H2; injection H2 as <-
  end.
  do 5 eexists. repeat split; eauto.
  all: unfold spec_multicast_config; simpl; rewrite ?map_app; simpl;
    rewrite <- ?app_assoc; reflexivity.
Qed.

Lemma get_self_Ret (c : UDPClient) (s s' : State) (t : list Event) :
  get_self s = (Ret c, s', t) -> c = self s /\ s' = s /\ t = [].
Proof. unfold get_self. intros H. injection H as <- <- <-. auto. Qed.

Lemma emit_Ret (e : Event) (u : unit) (s s' : State) (t : list Event) :
  emit e s = (Ret u, s', t) -> s' = s /\ t = [e].
Proof. unfold emit. intros H. injection H as _ <- <-. auto. Qed.

Lemma loop_create_datagram_endpoint_Ret (ep : Endpoint) (tr : Transport)
    (s s' : State) (t : list Event) :
  loop_create_datagram_endpoint ep s = (Ret tr, s', t) ->
  endpoint_ok ep = true /\ tr = mkTransport ep /\ s' = s /\
  t = [create_datagram_endpoint ep].
Proof.
  unfold loop_create_datagram_endpoint, bindM, emit, ret, raise.
  destruct (endpoint_ok ep); simpl; intros H; [|discriminate].
  injection H as <- <- <-. auto.
Qed.

Lemma set_transport_eq (tr : Transport) (s : State) :
  set_transport tr s = (Ret tt, with_transport tr s, []).
Proof. reflexivity. Qed.

(** With every call accepted, [create_multicast_sock] returns the socket of
    the specification. *)
Lemma create_multicast_sock_succeeds (own_str group_str : string) (port : PyVal)
    (own group : list byte) (remote_addr : PyVal) (s : State) :
  py_getitem remote_addr 0 = Ok (PyStr group_str) ->
  py_getitem remote_addr 1 = Ok port ->
  inet_aton own_str = Some own ->
  inet_aton group_str = Some group ->
  os_accepts [] (spec_multicast_config platform own group (PyStr group_str) port) = true ->
  create_multicast_sock (PyStr own_str) remote_addr s =
  (Ret (spec_multicast_config platform own group (PyStr group_str) port), s,
   map sys_call (spec_multicast_config platform own group (PyStr group_str) port)).
Proof.
  intros H0 H1 Ho Hg Hok.
  unfold create_multicast_sock, bind_by_platform, spec_multicast_config, spec_bind_policy in *.
  destruct (platform =? "win32")%string; [|destruct (platform =? "darwin")%string];
    simpl in Hok; rewrite ?andb_true_iff in Hok; decompose [and] Hok; clear Hok;
    unfold bindM, sys, emit, ret, raise, lift, socket_inet_aton; simpl;
    repeat match goal with
    | H : ?x = _ |- context [?x] => rewrite H; simpl
    end; reflexivity.
Qed.

(** What [connect] leaves behind when it returns, with and without
    multicast. *)
Lemma connect_Ret (s s' : State) (t : list Event) :
  connect s = (Ret tt, s', t) ->
  if multicast (self s) then
    exists own_str group_str port own group,
      py_getitem (local_addr (self s)) 0 = Ok (PyStr own_str) /\
      py_getitem (remote_addr (self s)) 0 = Ok (PyStr group_str) /\
      py_getitem (remote_addr (self s)) 1 = Ok port /\
      inet_aton own_str = Some own /\
      inet_aton group_str = Some group /\
      let sock := spec_multicast_config platform own group (PyStr group_str) port in
      s' = with_transport (mkTransport (over_sock sock)) s /\
      t = map sys_call sock ++ [create_datagram_endpoint (over_sock sock)]
  else
    let ep := over_addrs (local_addr (self s)) (remote_addr (self s)) in
    s' = with_transport (mkTransport ep) s /\
    t = [create_datagram_endpoint ep].
Proof.
  unfold connect. intros H.
  apply bindM_Ret in H. destruct H as (c & s1 & t1 & t2 & Hc & H & ->).
  apply get_self_Ret in Hc. destruct Hc as (-> & -> & ->).
  apply bindM_Ret in H. destruct H as (v & s1 & t1 & t3 & Hv & H & ->).
  apply lift_Ret in Hv. destruct Hv as (Hv & -> & ->).
  destruct (multicast (self s)).
  - apply bindM_Ret in H. destruct H as (own_ip & s1 & t1 & t4 & Ho & H & ->).
    apply lift_Ret in Ho. destruct Ho as (Ho & -> & ->).
    apply bindM_Ret in H. destruct H as (sock & s1 & t1 & t5 & Hs & H & ->).
    apply create_multicast_sock_Ret in Hs.
    destruct Hs as (own_str & group_str & port & own & group
                    & -> & Hg & Hp & Hown & Hgroup & -> & -> & ->).
    apply bindM_Ret in H. destruct H as (tr & s1 & t1 & t6 & Ht & H & ->).
    apply loop_create_datagram_endpoint_Ret in Ht. destruct Ht as (_ & -> & -> & ->).
    rewrite set_transport_eq in H. injection H as <- <-.
    exists own_str, group_str, port, own, group.
    repeat split; auto; simpl; now rewrite ?app_nil_r.
  - apply bindM_Ret in H. destruct H as (tr & s1 & t1 & t6 & Ht & H & ->).
    apply loop_create_datagram_endpoint_Ret in Ht. destruct Ht as (_ & -> & -> & ->).
    rewrite set_transport_eq in H. injection H as <- <-.
    split; reflexivity.
Qed.

(** Reading the specification's configuration back: TTL 2, loopback off,
    one membership, whatever the platform. *)
Lemma spec_multicast_config_readback (pf : string) (own group : list byte)
    (group_host port : PyVal) :
  let sock := spec_multicast_config pf own group group_host port in
  getsockopt sock IPPROTO_IP IP_MULTICAST_TTL = Some (OptInt 2) /\
  getsockopt sock IPPROTO_IP IP_MULTICAST_LOOP = Some (OptInt 0) /\
  getsockopt sock IPPROTO_IP IP_MULTICAST_IF = Some (OptBytes own) /\
  getsockopt sock SOL_SOCKET SO_REUSEADDR = Some (OptInt 1) /\
  memberships sock = [group ++ own].
Proof.
  unfold spec_multicast_config, spec_bind_policy.
  destruct (pf =? "win32")%string; [|destruct (pf =? "darwin")%string];
    repeat split.
Qed.

(** C5.  When [create_multicast_sock] returns, the socket it returns was
    configured by exactly these calls, in this order: the UDP datagram
    socket is created, [SO_REUSEADDR] is set to 1, the socket is made
    non-blocking, [IP_MULTICAST_IF] is set to the own interface,
    [IP_ADD_MEMBERSHIP] joins the group on that interface,
    [IP_MULTICAST_TTL] is set to 2, the bind follows the platform (on
    "win32" the wildcard address and the group's port; on "darwin"
    [SO_REUSEPORT] set to 1 and then the wildcard address and the group's
    port; otherwise the group's address and port), and
    [IP_MULTICAST_LOOP] is set to 0.  It does return, with that socket,
    whenever the two addresses can be packed and the operating system
    accepts these calls.  And after a multicast [connect] that returned,
    the client's transport runs over such a socket: its TTL reads 2, its
    multicast loopback 0, and its one membership is that of the group on
    the own interface. *)
Theorem multicast_socket_configuration (own_ip group_addr : PyVal) (s : State) :
  (forall sock s' t,
     create_multicast_sock own_ip group_addr s = (Ret sock, s', t) ->
     exists own_str group_str port own group,
       own_ip = PyStr own_str /\
       py_getitem group_addr 0 = Ok (PyStr group_str) /\
       py_getitem group_addr 1 = Ok port /\
       inet_aton own_str = Some own /\
       inet_aton group_str = Some group /\
       sock = spec_multicast_config platform own group (PyStr group_str) port /\
       s' = s /\ t = map sys_call sock) /\
  (forall own_str group_str port own group,
     own_ip = PyStr own_str ->
     py_getitem group_addr 0 = Ok (PyStr group_str) ->
     py_getitem group_addr 1 = Ok port ->
     inet_aton own_str = Some own ->
     inet_aton group_str = Some group ->
     os_accepts [] (spec_multicast_config platform own group (PyStr group_str) port) = true ->
     create_multicast_sock own_ip group_addr s =
     (Ret (spec_multicast_config platform own group (PyStr group_str) port), s,
      map sys_call (spec_multicast_config platform own group (PyStr group_str) port))) /\
  (forall s' t,
     multicast (self s) = true ->
     connect s = (Ret tt, s', t) ->
     exists sock own_str group_str own group,
       transport (self s') = Some (mkTransport (over_sock sock)) /\
       py_getitem (local_addr (self s)) 0 = Ok (PyStr own_str) /\
       py_getitem (remote_addr (self s)) 0 = Ok (PyStr group_str) /\
       inet_aton own_str = Some own /\
       inet_aton group_str = Some group /\
       getsockopt sock IPPROTO_IP IP_MULTICAST_TTL = Some (OptInt 2) /\
       getsockopt sock IPPROTO_IP IP_MULTICAST_LOOP = Some (OptInt 0) /\
       memberships sock = [group ++ own]).
Proof.
  split; [|split].
  - intros sock s' t H. now apply create_multicast_sock_Ret.
  - intros own_str group_str port own group -> H0 H1 Ho Hg Hok.
    now apply create_multicast_sock_succeeds.
  - intros s' t Hm H.
    apply connect_Ret in H. rewrite Hm in H.
    destruct H as (own_str & group_str & port & own & group & Hl & Hr & Hp & Ho & Hg & H).
    simpl in H. destruct H as (-> & _).
    destruct (spec_multicast_config_readback platform own group (PyStr group_str) port)
      as (Httl & Hloop & _ & _ & Hmem).
    exists (spec_multicast_config platform own group (PyStr group_str) port),
      own_str, group_str, own, group.
    repeat split; auto.
Qed.

(** [send_with], case by case. *)
Lemma send_with_eq (sendto_ends : option Exn) (f : KNXIPFrame) (s : State) :
  send_with sendto_ends f s =
  match transport (self s) with
  | None =>
      (Raise (XKNXException "Transport not connected"), s, [knx_logger_debug_Sending f])
  | Some t =>
      match py_bytes (to_knx f) with
      | Ok data =>
          (match sendto_ends with
           | None => Ret tt
           | Some e => Raise e
           end, s,
           [knx_logger_debug_Sending f;
            transport_sendto t data
              (if multicast (self s) then Some (remote_addr (self s)) else None)])
      | Err e => (Raise e, s, [knx_logger_debug_Sending f])
      end
  end.
Proof.
  unfold send_with, bindM, emit, get_self, raise, lift, ret, call_ends; simpl.
  destruct (transport (self s)) as [t|]; [|reflexivity].
  destruct (multicast (self s)); simpl;
    destruct (py_bytes (to_knx f)); simpl; try reflexivity;
    destruct sendto_ends; reflexivity.
Qed.

(** C7.  On a client with a transport, [send] logs the frame and makes
    one [sendto] on the transport with the encoded bytes: to [remote_addr]
    when [multicast] is true, without a destination when it is false; it
    returns when that call returns, and raises what the call raises.  The
    transport is the one [connect] has stored: without multicast the
    endpoint opened on [local_addr] with [remote_addr] as its peer, which
    is all that knows the peer; with multicast the endpoint over the socket
    [create_multicast_sock] has made. *)
Theorem send_destination (sendto_ends : option Exn) (f : KNXIPFrame) (s : State)
    (t : Transport) (data : list byte) :
  transport (self s) = Some t ->
  py_bytes (to_knx f) = Ok data ->
  send_with sendto_ends f s =
  (match sendto_ends with
   | None => Ret tt
   | Some e => Raise e
   end, s,
   [knx_logger_debug_Sending f;
    transport_sendto t data
      (if multicast (self s) then Some (remote_addr (self s)) else None)]) /\
  send f s = send_with None f s /\
  (forall s0 own_ip,
     multicast (self s0) = false ->
     py_getitem (local_addr (self s0)) 0 = Ok own_ip ->
     endpoint_ok (over_addrs (local_addr (self s0)) (remote_addr (self s0))) = true ->
     connect s0 =
     (Ret tt,
      with_transport
        (mkTransport (over_addrs (local_addr (self s0)) (remote_addr (self s0)))) s0,
      [create_datagram_endpoint
         (over_addrs (local_addr (self s0)) (remote_addr (self s0)))])) /\
  (forall s0 own_str group_str port own group,
     multicast (self s0) = true ->
     py_getitem (local_addr (self s0)) 0 = Ok (PyStr own_str) ->
     py_getitem (remote_addr (self s0)) 0 = Ok (PyStr group_str) ->
     py_getitem (remote_addr (self s0)) 1 = Ok port ->
     inet_aton own_str = Some own ->
     inet_aton group_str = Some group ->
     os_accepts [] (spec_multicast_config platform own group (PyStr group_str) port) = true ->
     endpoint_ok
       (over_sock (spec_multicast_config platform own group (PyStr group_str) port)) = true ->
     connect s0 =
     (Ret tt,
      with_transport
        (mkTransport
           (over_sock (spec_multicast_config platform own group (PyStr group_str) port))) s0,
      map sys_call (spec_multicast_config platform own group (PyStr group_str) port)
      ++ [create_datagram_endpoint
            (over_sock (spec_multicast_config platform own group (PyStr group_str) port))])) /\
  (forall s0 t0,
     connect s0 = (Ret tt, s, t0) ->
     multicast (self s) = false ->
     t = mkTransport (over_addrs (local_addr (self s)) (remote_addr (self s)))).
Proof.
  intros Ht Hd. split; [|split; [|split; [|split]]].
  - rewrite send_with_eq, Ht, Hd. reflexivity.
  - rewrite send_with_eq, send_eq. reflexivity.
  - intros s0 own_ip Hm Hl Hok.
    unfold connect, bindM at 1 2, get_self, lift. simpl. rewrite Hl, Hm. simpl.
    unfold bindM, loop_create_datagram_endpoint, bindM, emit, ret. simpl.
    rewrite Hok. reflexivity.
  - intros s0 own_str group_str port own group Hm Hl Hg Hp Ho Hgr Hacc Hok.
    unfold connect, bindM at 1 2, get_self, lift. simpl. rewrite Hl, Hm. simpl.
    unfold bindM at 1, ret. simpl. unfold bindM at 1.
    rewrite (create_multicast_sock_succeeds own_str group_str port own group
               (remote_addr (self s0)) s0 Hg Hp Ho Hgr Hacc).
    unfold bindM, loop_create_datagram_endpoint, bindM, emit, ret. simpl.
    rewrite Hok. reflexivity.
  - intros s0 t0 Hc Hm.
    apply connect_Ret in Hc.
    destruct (multicast (self s0)) eqn:Hm0.
    + destruct Hc as (? & ? & ? & ? & ? & _ & _ & _ & _ & _ & Hc).
      simpl in Hc. destruct Hc as (-> & _). simpl in Hm. congruence.
    + simpl in Hc. destruct Hc as (-> & _). simpl in Ht.
      injection Ht as <-. reflexivity.
Qed.

End Connect.

(** C5 on the test host: the multicast client connects, and its socket
    reads back as the specification says. *)
Lemma multicast_socket_configuration_witness :
  exists sock own_str group_str own group,
    transport (self Double.connected_multicast) = Some (mkTransport (over_sock sock)) /\
    py_getitem Double.any_local 0 = Ok (PyStr own_str) /\
    py_getitem Double.routing_group 0 = Ok (PyStr group_str) /\
    Double.inet_aton_table own_str = Some own /\
    Double.inet_aton_table group_str = Some group /\
    getsockopt sock IPPROTO_IP IP_MULTICAST_TTL = Some (OptInt 2) /\
    getsockopt sock IPPROTO_IP IP_MULTICAST_LOOP = Some (OptInt 0) /\
    memberships sock = [group ++ own].
Proof.
  apply (proj2 (proj2 (multicast_socket_configuration (host := Double.linux)
                         PyNone PyNone (new_state Double.multicast_client)))
           Double.connected_multicast
           (trace_of (connect (host := Double.linux) (new_state Double.multicast_client))));
    reflexivity.
Defined.

(** C7 on the unicast client, connected, with a [sendto] that returns: the
    datagram goes out without a destination. *)
Lemma send_destination_witness :
  send_with None Double.search_request Double.connected_unicast =
  (Ret tt, Double.connected_unicast,
   [knx_logger_debug_Sending Double.search_request;
    transport_sendto
      (mkTransport
         (over_addrs Double.lan_local (PyTuple [PyStr "192.168.1.20"; PyInt 3671%Z])))
      Double.search_request_raw None]).
Proof.
  apply (send_destination (host := Double.linux) None
           Double.search_request Double.connected_unicast
           (mkTransport
              (over_addrs Double.lan_local (PyTuple [PyStr "192.168.1.20"; PyInt 3671%Z])))
           Double.search_request_raw); reflexivity.
Defined.

(** Five facts stated together are proved one by one. *)
Ltac facts := split; [|split; [|split; [|split]]].

Section Registry.

Context {knxip : KNXIP}.

(** [list.remove] finds nothing exactly when the object is not in the
    list. *)
Lemma list_remove_None (x : Callback) (l : list Callback) :
  list_remove x l = None <-> ~ In (cb_id x) (map cb_id l).
Proof.
  induction l as [|y rest IH]; simpl.
  - split; auto.
  - unfold same_object. destruct (cb_id y =? cb_id x) eqn:E.
    + apply Nat.eqb_eq in E. split; [discriminate|]. intros H. exfalso. auto.
    + apply Nat.eqb_neq in E.
      destruct (list_remove x rest) as [rest'|].
      * split; [discriminate|]. intros H. exfalso.
        assert (Hn : ~ In (cb_id x) (map cb_id rest)) by tauto.
        apply IH in Hn. discriminate.
      * split; [|reflexivity]. intros _ [H|H]; [congruence|].
        now apply (proj1 IH).
Qed.

(** What [list.remove] removes is the first occurrence of the object. *)
Lemma list_remove_Some (x : Callback) (l l' : list Callback) :
  list_remove x l = Some l' ->
  exists l1 y l2,
    l = l1 ++ y :: l2 /\ l' = l1 ++ l2 /\ cb_id y = cb_id x /\
    ~ In (cb_id x) (map cb_id l1).
Proof.
  revert l'. induction l as [|y rest IH]; simpl; intros l' H; [discriminate|].
  unfold same_object in H. destruct (cb_id y =? cb_id x) eqn:E.
  - apply Nat.eqb_eq in E. injection H as <-.
    exists [], y, rest. simpl. auto.
  - apply Nat.eqb_neq in E.
    destruct (list_remove x rest) as [rest'|]; [|discriminate].
    injection H as <-.
    destruct (IH rest' eq_refl) as (l1 & z & l2 & -> & -> & Hz & Hn).
    exists (y :: l1), z, l2. simpl. repeat split; auto.
    intros [H|H]; auto.
Qed.

(** In a list without duplicates, what is left holds every other object,
    in order, and not the removed one. *)
Lemma list_remove_NoDup (x : Callback) (l l' : list Callback) :
  NoDup (map cb_id l) ->
  list_remove x l = Some l' ->
  l' = filter (fun cb => negb (same_object cb x)) l /\
  ~ In (cb_id x) (map cb_id l').
Proof.
  revert l'. induction l as [|y rest IH]; simpl; intros l' Hnd H; [discriminate|].
  inversion Hnd as [|? ? Hy Hrest]; subst.
  unfold same_object in *. destruct (cb_id y =? cb_id x) eqn:E; simpl.
  - apply Nat.eqb_eq in E. injection H as <-. rewrite <- E. split; auto.
    symmetry. apply forallb_filter_id. apply forallb_forall.
    intros z Hz. apply negb_true_iff, Nat.eqb_neq. intros Heq.
    apply Hy. rewrite <- Heq. now apply in_map.
  - apply Nat.eqb_neq in E.
    destruct (list_remove x rest) as [rest'|]; [|discriminate].
    injection H as <-.
    destruct (IH rest' Hrest eq_refl) as (-> & Hn).
    split; [reflexivity|]. simpl. intros [H|H]; auto.
Qed.

Lemma unregister_callback_eq (callb : Callback) (s : State) :
  unregister_callback callb s =
  match list_remove callb (callbacks (self s)) with
  | Some l =>
      (Ret tt,
       mkState (mkUDPClient (xknx (self s)) (local_addr (self s)) (remote_addr (self s))
                  (multicast (self s)) (transport (self s)) l)
               (next_id s),
       [])
  | None => (Raise ValueError, s, [])
  end.
Proof. reflexivity. Qed.

(** C9.  When the handle is not in the list of registrations,
    [unregister_callback] raises [ValueError] and leaves the state, the
    list of registrations and every other attribute of the client, exactly
    as it was; it causes no event. *)
Theorem unregister_absent_changes_nothing (h : Callback) (s : State) :
  ~ In (cb_id h) (ids s) ->
  unregister_callback h s = (Raise ValueError, s, []).
Proof.
  intros H. rewrite unregister_callback_eq.
  apply list_remove_None in H. unfold ids in H. now rewrite H.
Qed.

Lemma invoked_app (t1 t2 : list Event) : invoked (t1 ++ t2) = invoked t1 ++ invoked t2.
Proof.
  induction t1 as [|e t1 IH]; simpl; [reflexivity|].
  destruct e; simpl; rewrite IH; reflexivity.
Qed.

Lemma unhandled_app (t1 t2 : list Event) :
  unhandled (t1 ++ t2) = unhandled t1 ++ unhandled t2.
Proof.
  induction t1 as [|e t1 IH]; simpl; [reflexivity|].
  destruct e; simpl; rewrite IH; reflexivity.
Qed.

Lemma invoked_In (t : list Event) (cb : Callback) (f : KNXIPFrame) :
  In (call_callback cb f) t <-> In (cb, f) (invoked t).
Proof.
  induction t as [|e t IH]; simpl; [tauto|].
  destruct e; simpl; rewrite <- IH;
    (split; [intros [H|H]; [try discriminate|]; auto | intros H; auto]);
    try (injection H as -> ->; auto);
    destruct H as [H|H]; auto; injection H as -> ->; auto.
Qed.

Lemma unhandled_In (t : list Event) (st : ServiceType) :
  In (logger_debug_UNHANDLED st) t <-> In st (unhandled t).
Proof.
  induction t as [|e t IH]; simpl; [tauto|].
  destruct e; simpl; rewrite <- IH;
    (split; [intros [H|H]; [try discriminate|]; auto | intros H; auto]);
    try (injection H as ->; auto);
    destruct H as [H|H]; auto; subst; auto.
Qed.

(** *** What a callback can do *)

Lemma register_callback_eq (h : Handler) (types : option (list ServiceType)) (s : State) :
  register_callback h types s =
  (Ret (Callback_init (next_id s) h types),
   mkState (mkUDPClient (xknx (self s)) (local_addr (self s)) (remote_addr (self s))
              (multicast (self s)) (transport (self s))
              (callbacks (self s) ++ [Callback_init (next_id s) h types]))
           (S (next_id s)),
   []).
Proof.
  unfold register_callback, Callback_init.
  destruct types as [[|]|]; reflexivity.
Qed.

Lemma NoDup_snoc (l : list nat) (n : nat) : NoDup l -> ~ In n l -> NoDup (l ++ [n]).
Proof.
  induction l as [|a l IH]; simpl; intros Hnd Hn.
  - constructor; [tauto|constructor].
  - inversion Hnd; subst. constructor.
    + rewrite in_app_iff. simpl. intros [H|[H|[]]]; auto.
    + apply IH; auto.
Qed.

Lemma register_callback_wf (h : Handler) (types : option (list ServiceType)) (s : State) :
  wf s -> wf (state_of (register_callback h types s)).
Proof.
  rewrite register_callback_eq. unfold wf, ids, state_of. simpl.
  intros [Hnd Hlt]. rewrite map_app. simpl.
  assert (Hfresh : ~ In (next_id s) (map cb_id (callbacks (self s)))).
  { intros H. rewrite Forall_forall in Hlt. apply Hlt in H. lia. }
  split.
  - apply NoDup_snoc; auto.
  - apply Forall_app. split.
    + eapply Forall_impl; [|exact Hlt]. simpl. intros. lia.
    + constructor; [|constructor]. destruct types as [[|]|]; simpl; lia.
Qed.

Lemma register_callback_absent (h : Handler) (types : option (list ServiceType))
    (s : State) (id : nat) :
  absent id s -> absent id (state_of (register_callback h types s)).
Proof.
  rewrite register_callback_eq. unfold absent, ids, state_of. simpl.
  intros [Hn Hlt]. rewrite map_app, in_app_iff. simpl. split; [|lia].
  intros [H|[H|[]]]; [auto|].
  destruct types as [[|]|]; simpl in H; lia.
Qed.

Lemma unregister_callback_wf (callb : Callback) (s : State) :
  wf s -> wf (state_of (unregister_callback callb s)).
Proof.
  rewrite unregister_callback_eq. unfold wf, ids.
  destruct (list_remove callb (callbacks (self s))) as [l|] eqn:E; [|auto].
  apply list_remove_Some in E. destruct E as (l1 & y & l2 & E & -> & _ & _).
  unfold state_of. simpl. rewrite E. rewrite !map_app. simpl.
  intros [Hnd Hlt]. split.
  - eapply NoDup_remove_1; eauto.
  - apply Forall_app in Hlt. destruct Hlt as [H1 H2]. inversion H2; subst.
    apply Forall_app. auto.
Qed.

Lemma unregister_callback_absent (callb : Callback) (s : State) (id : nat) :
  absent id s -> absent id (state_of (unregister_callback callb s)).
Proof.
  rewrite unregister_callback_eq. unfold absent, ids.
  destruct (list_remove callb (callbacks (self s))) as [l|] eqn:E; [|auto].
  apply list_remove_Some in E. destruct E as (l1 & y & l2 & E & -> & _ & _).
  unfold state_of. simpl. rewrite E. rewrite !map_app. simpl.
  intros [Hn Hlt]. split; [|exact Hlt].
  rewrite in_app_iff in *. simpl in Hn. tauto.
Qed.

(** A call a callback makes on the client ends, calls no callback and logs
    nothing as unhandled; it keeps the state well-formed, and does not put
    back a [Callback] object that is not in the list. *)
Lemma run_action_facts (a : Action) (s : State) :
  outcome_of (run_action a s) <> OutOfFuel /\
  invoked (trace_of (run_action a s)) = [] /\
  unhandled (trace_of (run_action a s)) = [] /\
  (wf s -> wf (state_of (run_action a s))) /\
  (forall id, absent id s -> absent id (state_of (run_action a s))).
Proof.
  destruct a as [h types|callb|f|e]; simpl.
  - pose proof (register_callback_wf h types s) as Hwf.
    pose proof (register_callback_absent h types s) as Hab.
    unfold bindM, ret. rewrite register_callback_eq in *.
    unfold outcome_of, trace_of, state_of in *. simpl in *.
    facts; auto; try discriminate.
  - pose proof (unregister_callback_wf callb s) as Hwf.
    pose proof (unregister_callback_absent callb s) as Hab.
    rewrite unregister_callback_eq in *.
    destruct (list_remove callb (callbacks (self s)));
      unfold outcome_of, trace_of, state_of in *; simpl in *;
      facts; auto; try discriminate.
  - rewrite send_eq.
    destruct (transport (self s)); [destruct (py_bytes (to_knx f))|];
      unfold outcome_of, trace_of, state_of; simpl;
      facts; auto; try discriminate.
  - unfold raise, outcome_of, trace_of, state_of; simpl.
    facts; auto; try discriminate.
Qed.

Lemma run_actions_facts (l : list Action) (s : State) :
  outcome_of (run_actions l s) <> OutOfFuel /\
  invoked (trace_of (run_actions l s)) = [] /\
  unhandled (trace_of (run_actions l s)) = [] /\
  (wf s -> wf (state_of (run_actions l s))) /\
  (forall id, absent id s -> absent id (state_of (run_actions l s))).
Proof.
  revert s. induction l as [|a rest IH]; intros s; simpl.
  - unfold ret, outcome_of, trace_of, state_of; simpl.
    facts; auto; try discriminate.
  - destruct (run_action_facts a s) as (Ho & Hi & Hu & Hwf & Hab).
    unfold bindM.
    destruct (run_action a s) as [[[u| |] s1] t1];
      unfold outcome_of, trace_of, state_of in *; simpl in *.
    + destruct (IH s1) as (Ho' & Hi' & Hu' & Hwf' & Hab').
      destruct (run_actions rest s1) as [[o s2] t2];
        unfold outcome_of, trace_of, state_of in *; simpl in *.
      rewrite invoked_app, unhandled_app, Hi, Hu, Hi', Hu'.
      facts; auto.
    + facts; auto; try discriminate.
    + congruence.
Qed.

End Registry.

(** C9 on a handle that was unregistered before. *)
Lemma unregister_absent_changes_nothing_witness :
  unregister_callback Double.search_handle Double.search_listener_gone =
  (Raise ValueError, Double.search_listener_gone, []).
Proof.
  apply (unregister_absent_changes_nothing Double.search_handle Double.search_listener_gone).
  simpl. tauto.
Defined.

Section Dispatch.

Context {knxip : KNXIP}.
Variable handler_code : Handler -> KNXIPFrame -> State -> list Action.

(** *** The loop over the registrations *)

Local Abbreviation loop := (for_callback_in_callbacks handler_code).
Local Abbreviation sti := service_type_ident.

(** One turn of the loop. *)
Lemma loop_step (fuel : nat) (f : KNXIPFrame) (i : nat) (h : bool) (s : State) :
  loop (S fuel) f i h s =
  match nth_error (callbacks (self s)) i with
  | None => (Ret h, s, [])
  | Some cb =>
      if has_service cb (sti f) then
        match run_actions (handler_code (callback cb) f s) s with
        | (Ret _, s1, t1) =>
            match loop fuel f (S i) true s1 with
            | (o, s2, t2) => (o, s2, call_callback cb f :: t1 ++ t2)
            end
        | (Raise e, s1, t1) => (Raise e, s1, call_callback cb f :: t1)
        | (OutOfFuel, s1, t1) => (OutOfFuel, s1, call_callback cb f :: t1)
        end
      else loop fuel f (S i) h s
  end.
Proof.
  simpl. unfold bindM, get_self, ret. simpl.
  destruct (nth_error (callbacks (self s)) i) as [cb|]; [|reflexivity].
  destruct (has_service cb (sti f)).
  - unfold call, bindM, emit. simpl.
    destruct (run_actions (handler_code (callback cb) f s) s) as [[[u| |] s1] t1];
      try reflexivity.
    destruct (for_callback_in_callbacks handler_code fuel f (S i) true s1) as [[o s2] t2].
    reflexivity.
  - destruct (for_callback_in_callbacks handler_code fuel f (S i) h s) as [[o s2] t2].
    reflexivity.
Qed.

Lemma skipn_nth_error {A} (l : list A) (i : nat) (x : A) :
  nth_error l i = Some x -> skipn i l = x :: skipn (S i) l.
Proof.
  revert i. induction l as [|a l IH]; intros [|i]; simpl; try discriminate.
  - intros H. injection H as ->. reflexivity.
  - intros H. now apply IH.
Qed.

Lemma skipn_nth_error_None {A} (l : list A) (i : nat) :
  nth_error l i = None -> skipn i l = [].
Proof. intros H. apply skipn_all2. now apply nth_error_None. Qed.

Local Arguments skipn : simpl never.

(** Whatever the callbacks do: the loop logs nothing as unhandled, calls
    callbacks with the frame being dispatched only, keeps the state
    well-formed, never calls a [Callback] object that is not in the list
    when the loop starts, and keeps the flag once it is set. *)
Lemma loop_facts (fuel : nat) (f : KNXIPFrame) :
  forall (i : nat) (h : bool) (s : State),
    unhandled (trace_of (loop fuel f i h s)) = [] /\
    Forall (fun p => snd p = f) (invoked (trace_of (loop fuel f i h s))) /\
    (wf s -> wf (state_of (loop fuel f i h s))) /\
    (forall id, absent id s ->
       absent id (state_of (loop fuel f i h s)) /\
       Forall (fun p => cb_id (fst p) <> id) (invoked (trace_of (loop fuel f i h s)))) /\
    (h = true -> outcome_of (loop fuel f i h s) <> Ret false).
Proof.
  induction fuel as [|fuel IH]; intros i h s.
  - simpl. unfold outcome_of, trace_of, state_of. simpl.
    facts; auto; discriminate.
  - rewrite loop_step.
    destruct (nth_error (callbacks (self s)) i) as [cb|] eqn:Hnth.
    2:{ unfold outcome_of, trace_of, state_of. simpl.
        facts; auto. intros ->. discriminate. }
    destruct (has_service cb (sti f)); [|apply IH].
    destruct (run_actions_facts (handler_code (callback cb) f s) s)
      as (Ho & Hi & Hu & Hwf & Hab).
    assert (Hcb : forall id, absent id s -> cb_id cb <> id).
    { intros id [Hn _] <-. apply Hn. unfold ids. apply in_map.
      eapply nth_error_In; eauto. }
    destruct (run_actions (handler_code (callback cb) f s) s) as [[[u| |] s1] t1];
      unfold outcome_of, trace_of, state_of in *; simpl in *.
    + destruct (IH (S i) true s1) as (Hu' & Hf' & Hwf' & Hab' & Hh').
      destruct (loop fuel f (S i) true s1) as [[o s2] t2];
        unfold outcome_of, trace_of, state_of in *; simpl in *.
      rewrite invoked_app, unhandled_app, Hi, Hu, Hu'. simpl.
      facts; auto.
      intros id Hid. destruct (Hab' id (Hab id Hid)) as [H1 H2].
      split; auto; constructor; auto; simpl; auto.
    + rewrite Hi, Hu.
      facts; auto; try (intros _; discriminate);
        intros id Hid; split; auto; constructor; auto; simpl; auto.
    + congruence.
Qed.

(** With no registration listening from position [i] on, the loop ends
    without having called anything, and with the flag as it was. *)
Lemma loop_no_listener (fuel : nat) (f : KNXIPFrame) :
  forall (i : nat) (h : bool) (s : State),
    listening (sti f) (skipn i (callbacks (self s))) = [] ->
    List.length (skipn i (callbacks (self s))) < fuel ->
    loop fuel f i h s = (Ret h, s, []).
Proof.
  induction fuel as [|fuel IH]; intros i h s Hl Hfuel; [lia|].
  rewrite loop_step.
  destruct (nth_error (callbacks (self s)) i) as [cb|] eqn:Hnth; [|reflexivity].
  rewrite (skipn_nth_error _ _ _ Hnth) in Hl, Hfuel.
  unfold listening in Hl. simpl in Hl, Hfuel.
  destruct (has_service cb (sti f)); [discriminate|].
  apply IH; [exact Hl|lia].
Qed.

(** With a registration listening at position [i] or later, the loop does
    not end with the flag unset. *)
Lemma loop_listener (fuel : nat) (f : KNXIPFrame) :
  forall (i : nat) (s : State),
    listening (sti f) (skipn i (callbacks (self s))) <> [] ->
    outcome_of (loop fuel f i false s) <> Ret false.
Proof.
  induction fuel as [|fuel IH]; intros i s Hl; [discriminate|].
  rewrite loop_step.
  destruct (nth_error (callbacks (self s)) i) as [cb|] eqn:Hnth.
  2:{ rewrite (skipn_nth_error_None _ _ Hnth) in Hl. now elim Hl. }
  rewrite (skipn_nth_error _ _ _ Hnth) in Hl.
  unfold listening in Hl. simpl in Hl.
  destruct (has_service cb (sti f)); [|now apply IH].
  destruct (run_actions (handler_code (callback cb) f s) s) as [[[u| |] s1] t1];
    try discriminate.
  destruct (loop_facts fuel f (S i) true s1) as (_ & _ & _ & _ & Hh).
  destruct (loop fuel f (S i) true s1) as [[o s2] t2].
  unfold outcome_of in *. simpl in *. auto.
Qed.

(** An exception that leaves the loop was raised by a callback the loop
    called. *)
Lemma loop_raise (fuel : nat) (f : KNXIPFrame) (e : Exn) :
  forall (i : nat) (h : bool) (s : State),
    outcome_of (loop fuel f i h s) = Raise e ->
    exists cb s1,
      In (cb, f) (invoked (trace_of (loop fuel f i h s))) /\
      outcome_of (run_actions (handler_code (callback cb) f s1) s1) = Raise e.
Proof.
  induction fuel as [|fuel IH]; intros i h s; [discriminate|].
  rewrite loop_step.
  destruct (nth_error (callbacks (self s)) i) as [cb|] eqn:Hnth; [|discriminate].
  destruct (has_service cb (sti f)); [|apply IH].
  destruct (run_actions (handler_code (callback cb) f s) s) as [[[u| |] s1] t1] eqn:Hrun.
  - specialize (IH (S i) true s1).
    destruct (loop fuel f (S i) true s1) as [[o s2] t2].
    unfold outcome_of, trace_of in *. simpl in *.
    intros H. destruct (IH H) as (cb' & s' & Hin & Hr).
    exists cb', s'. split; auto. right. rewrite invoked_app, in_app_iff. auto.
  - unfold outcome_of, trace_of. simpl. intros H. injection H as ->.
    exists cb, s. split; auto. now rewrite Hrun.
  - discriminate.
Qed.


(** *** [handle_knxipframe] *)

Local Abbreviation handle := (handle_knxipframe handler_code).

Lemma handle_knxipframe_eq (fuel : nat) (f : KNXIPFrame) (s : State) :
  handle fuel f s =
  match loop fuel f 0 false s with
  | (Ret true, s1, t1) => (Ret tt, s1, t1 ++ [])
  | (Ret false, s1, t1) => (Ret tt, s1, t1 ++ [logger_debug_UNHANDLED (sti f)])
  | (Raise e, s1, t1) => (Raise e, s1, t1)
  | (OutOfFuel, s1, t1) => (OutOfFuel, s1, t1)
  end.
Proof.
  unfold handle_knxipframe, bindM.
  destruct (for_callback_in_callbacks handler_code fuel f 0 false s) as [[[[|]| |] s1] t1];
    reflexivity.
Qed.





Lemma listener_means_nothing_unhandled (fuel : nat) (f : KNXIPFrame) (s : State) :
  listening (sti f) (callbacks (self s)) <> [] ->
  unhandled (trace_of (handle fuel f s)) = [].
Proof.
  intros Hl. rewrite handle_knxipframe_eq.
  pose proof (loop_listener fuel f 0 s Hl) as Hne.
  destruct (loop_facts fuel f 0 false s) as (Hu & _).
  destruct (loop fuel f 0 false s) as [[[[|]| |] s1] t1];
    unfold outcome_of, trace_of in *; simpl in *;
    rewrite ?unhandled_app, ?Hu; auto.
  now elim Hne.
Qed.

(** C6, as amended.  When [handle_knxipframe] has gone through the
    registrations, the frame's service type is logged as unhandled if and
    only if no registration listens for it.  With no registration
    listening, [handle_knxipframe] returns, having logged that and done
    nothing else; with one listening, nothing is logged as unhandled.
    [handle_knxipframe] raises nothing of its own in either case: an
    exception that leaves it was raised by a callback it called, and leaves
    it because nothing catches it there. *)
Theorem unhandled_iff_no_listener (fuel : nat) (f : KNXIPFrame) (s : State) :
  List.length (callbacks (self s)) < fuel ->
  (In (logger_debug_UNHANDLED (sti f)) (trace_of (handle fuel f s)) <->
   listening (sti f) (callbacks (self s)) = []) /\
  (listening (sti f) (callbacks (self s)) = [] ->
   handle fuel f s = (Ret tt, s, [logger_debug_UNHANDLED (sti f)])) /\
  (listening (sti f) (callbacks (self s)) <> [] ->
   unhandled (trace_of (handle fuel f s)) = []) /\
  (forall e,
     outcome_of (handle fuel f s) = Raise e ->
     exists cb s1,
       In (call_callback cb f) (trace_of (handle fuel f s)) /\
       outcome_of (run_actions (handler_code (callback cb) f s1) s1) = Raise e).
Proof.
  intros Hfuel.
  assert (Hnone : listening (sti f) (callbacks (self s)) = [] ->
                  handle fuel f s = (Ret tt, s, [logger_debug_UNHANDLED (sti f)])).
  { intros Hl. rewrite handle_knxipframe_eq.
    now rewrite (loop_no_listener fuel f 0 false s Hl Hfuel). }
  split; [|split; [|split]].
  - split.
    + intros Hin.
      destruct (listening (sti f) (callbacks (self s))) as [|cb l] eqn:Hl; [reflexivity|].
      exfalso. apply unhandled_In in Hin.
      rewrite listener_means_nothing_unhandled in Hin; [exact Hin|].
      rewrite Hl. discriminate.
    + intros Hl. rewrite (Hnone Hl). unfold trace_of. simpl. auto.
  - exact Hnone.
  - apply listener_means_nothing_unhandled.
  - intros e. rewrite handle_knxipframe_eq.
    pose proof (loop_raise fuel f e 0 false s) as Hr.
    destruct (loop fuel f 0 false s) as [[[[|]| |] s1] t1];
      unfold outcome_of, trace_of in *; simpl in *; try discriminate.
    intros He. injection He as ->. destruct (Hr eq_refl) as (cb & s' & Hin & Hrun).
    exists cb, s'. split; auto. now apply invoked_In.
Qed.

End Dispatch.



(** C6, as stated, fails: a registration listens for the frame, its callback
    raises, and the exception leaves [handle_knxipframe]. *)
Lemma faulty_callback_raises_through_dispatch :
  listening 513%Z (callbacks (self Double.faulty_listener)) = [Double.faulty_handle] /\
  handle_knxipframe Double.faulty 3 Double.search_request Double.faulty_listener =
  (Raise ValueError, Double.faulty_listener,
   [call_callback Double.faulty_handle Double.search_request]).
Proof. split; reflexivity. Qed.

(** The amended C6 on the scenario of the specification: a callback is
    registered for search requests (0x0201), a description request (0x0203)
    is dispatched, and its service type is logged as unhandled. *)
Lemma unhandled_iff_no_listener_witness :
  handle_knxipframe Double.quiet 3 Double.description_request Double.search_listener =
  (Ret tt, Double.search_listener, [logger_debug_UNHANDLED 515%Z]).
Proof.
  apply (unhandled_iff_no_listener Double.quiet 3 Double.description_request
           Double.search_listener).
  - simpl. lia.
  - reflexivity.
Defined.

Section Receive.

Context {knxip : KNXIP}.
Variable handler_code : Handler -> KNXIPFrame -> State -> list Action.

Local Abbreviation handle := (handle_knxipframe handler_code).
Local Abbreviation receive := (data_received_callback handler_code).

(** What [handle_knxipframe] does whatever the callbacks do: it calls
    callbacks with its frame only, keeps the state well-formed, and never
    calls a [Callback] object that is not in the list when it starts. *)
Lemma handle_knxipframe_facts (fuel : nat) (f : KNXIPFrame) (s : State) :
  Forall (fun p => snd p = f) (invoked (trace_of (handle fuel f s))) /\
  (wf s -> wf (state_of (handle fuel f s))) /\
  (forall id, absent id s ->
     absent id (state_of (handle fuel f s)) /\
     Forall (fun p => cb_id (fst p) <> id) (invoked (trace_of (handle fuel f s)))).
Proof.
  rewrite handle_knxipframe_eq.
  destruct (loop_facts handler_code fuel f 0 false s) as (_ & Hf & Hwf & Hab & _).
  destruct (for_callback_in_callbacks handler_code fuel f 0 false s)
    as [[[[|]| |] s1] t1];
    unfold outcome_of, trace_of, state_of in *; simpl in *;
    rewrite ?invoked_app, ?app_nil_r; auto.
Qed.

(** [data_received_callback], case by case. *)
Lemma data_received_callback_eq (fuel : nat) (raw : list byte) (s : State) :
  receive fuel raw s =
  match raw with
  | [] => (Ret tt, s, [])
  | _ :: _ =>
      match from_knx (xknx (self s)) raw with
      | Err (CouldNotParseKNXIP msg) =>
          (Ret tt, s, [KNXIPFrame_from_knx raw; logger_exception (CouldNotParseKNXIP msg)])
      | Err e => (Raise e, s, [KNXIPFrame_from_knx raw])
      | Ok f =>
          match handle fuel f s with
          | (Raise (CouldNotParseKNXIP msg), s1, t1) =>
              (Ret tt, s1,
               (KNXIPFrame_from_knx raw :: knx_logger_debug_Received f :: t1)
               ++ [logger_exception (CouldNotParseKNXIP msg)])
          | (o, s1, t1) => (o, s1, KNXIPFrame_from_knx raw :: knx_logger_debug_Received f :: t1)
          end
      end
  end.
Proof.
  destruct raw as [|b raw]; [reflexivity|].
  unfold data_received_callback, try_except_CouldNotParseKNXIP, bindM, get_self, emit,
    lift, ret, raise.
  simpl.
  destruct (from_knx (xknx (self s)) (b :: raw)) as [f|e]; simpl.
  - destruct (handle_knxipframe handler_code fuel f s) as [[[u|e|] s1] t1]; simpl;
      try reflexivity.
    destruct e; reflexivity.
  - destruct e; reflexivity.
Qed.

(** C3.  Empty bytes are dropped: [data_received_callback] returns without
    an event, so without an attempt to decode.  When decoding raises
    [CouldNotParseKNXIP], the exception is logged and the bytes are
    dropped: the method returns, no callback is called, and the client is
    as it was before.  A callback is called only with a frame the bytes
    were decoded to; that frame is logged as received and handed to
    [handle_knxipframe]. *)
Theorem receive_path (fuel : nat) (raw : list byte) (s : State) :
  (raw = [] -> receive fuel raw s = (Ret tt, s, [])) /\
  (forall msg,
     raw <> [] ->
     from_knx (xknx (self s)) raw = Err (CouldNotParseKNXIP msg) ->
     receive fuel raw s =
     (Ret tt, s, [KNXIPFrame_from_knx raw; logger_exception (CouldNotParseKNXIP msg)])) /\
  (forall cb f,
     In (call_callback cb f) (trace_of (receive fuel raw s)) ->
     raw <> [] /\ from_knx (xknx (self s)) raw = Ok f) /\
  (forall f,
     raw <> [] ->
     from_knx (xknx (self s)) raw = Ok f ->
     state_of (receive fuel raw s) = state_of (handle fuel f s) /\
     exists logged,
       trace_of (receive fuel raw s) =
       KNXIPFrame_from_knx raw :: knx_logger_debug_Received f :: trace_of (handle fuel f s) ++ logged /\
       invoked logged = []).
Proof.
  rewrite data_received_callback_eq.
  split; [|split; [|split]].
  - intros ->. reflexivity.
  - intros msg Hraw Hdec. destruct raw; [now elim Hraw|]. now rewrite Hdec.
  - intros cb f. destruct raw as [|b raw]; [intros []|].
    destruct (from_knx (xknx (self s)) (b :: raw)) as [f0|e] eqn:Hdec.
    + destruct (handle_knxipframe_facts fuel f0 s) as (Hf & _).
      intros Hin. split; [discriminate|].
      apply invoked_In in Hin.
      assert (Hin' : In (cb, f) (invoked (trace_of (handle fuel f0 s)))).
      { destruct (handle_knxipframe handler_code fuel f0 s) as [[[u|e|] s1] t1];
          try destruct e; unfold trace_of in *; simpl in Hin |- *;
          rewrite ?invoked_app in Hin; simpl in Hin;
          rewrite ?app_nil_r in Hin; exact Hin. }
      rewrite Forall_forall in Hf. apply Hf in Hin'. simpl in Hin'. now subst.
    + unfold trace_of. destruct e; simpl; intros H; exfalso;
        repeat (destruct H as [H|H]; [discriminate|]); exact H.
  - intros f Hraw Hdec. destruct raw as [|b raw]; [now elim Hraw|]. rewrite Hdec.
    destruct (handle_knxipframe handler_code fuel f s) as [[[u|e|] s1] t1];
      unfold trace_of, state_of; simpl;
      try (split; [reflexivity|]; exists []; now rewrite app_nil_r).
    destruct e; split; try reflexivity;
      try (exists []; now rewrite app_nil_r).
    exists [logger_exception (CouldNotParseKNXIP msg)]. split; reflexivity.
Qed.

End Receive.

(** C3 on bytes that are no KNX/IP frame, received by a client with two
    registrations without a filter. *)
Lemma receive_path_witness :
  data_received_callback Double.quiet 3 [x01; x02; x03] Double.two_listeners =
  (Ret tt, Double.two_listeners,
   [KNXIPFrame_from_knx [x01; x02; x03]; logger_exception (CouldNotParseKNXIP "wrong header")]).
Proof.
  apply (receive_path Double.quiet 3 [x01; x02; x03] Double.two_listeners).
  - discriminate.
  - reflexivity.
Defined.

Section Lifetime.

Context {knxip : KNXIP} {host : Host}.
Variable handler_code : Handler -> KNXIPFrame -> State -> list Action.

Lemma harmless_bindM {A B} (m : M A) (k : A -> M B) :
  harmless m -> (forall a, harmless (k a)) -> harmless (bindM m k).
Proof.
  intros Hm Hk s. unfold bindM.
  destruct (Hm s) as (H1 & H2 & H3).
  destruct (m s) as [[[a| |] s1] t1];
    unfold trace_of, state_of in *; simpl in *; auto.
  destruct (Hk a s1) as (H4 & H5 & H6).
  destruct (k a s1) as [[o s2] t2]; unfold trace_of, state_of in *; simpl in *.
  rewrite invoked_app, H3, H6. repeat split; congruence.
Qed.

Lemma harmless_ret {A} (a : A) : harmless (ret a).
Proof. intros s. repeat split. Qed.

Lemma harmless_raise {A} (e : Exn) : harmless (raise (A := A) e).
Proof. intros s. repeat split. Qed.

Lemma harmless_lift {A} (r : Result A) : harmless (lift r).
Proof. destruct r; [apply harmless_ret|apply harmless_raise]. Qed.

Lemma harmless_get_self : harmless get_self.
Proof. intros s. repeat split. Qed.

Lemma harmless_emit (e : Event) : invoked [e] = [] -> harmless (emit e).
Proof. intros H s. repeat split. exact H. Qed.

Lemma harmless_set_transport (t : Transport) : harmless (set_transport t).
Proof. intros s. repeat split. Qed.

(** Taking a method apart into the steps above; [known] closes the steps
    that are methods already shown harmless. *)
Ltac harmless_steps_with known :=
  repeat first
    [ known
    | apply harmless_set_transport
    | apply harmless_ret
    | apply harmless_raise
    | apply harmless_lift
    | apply harmless_get_self
    | apply harmless_emit; reflexivity
    | match goal with
      | |- harmless (if ?b then _ else _) => destruct b
      | |- harmless (match ?x with _ => _ end) => destruct x
      end
    | apply harmless_bindM; [|intros ?] ].

Ltac harmless_steps := harmless_steps_with fail.

Lemma harmless_sys (sock : Socket) (c : SockCall) : harmless (sys sock c).
Proof. unfold sys. harmless_steps. Qed.

Lemma harmless_socket_inet_aton (v : PyVal) : harmless (socket_inet_aton v).
Proof. unfold socket_inet_aton. harmless_steps. Qed.

Lemma harmless_create_multicast_sock (own_ip group_addr : PyVal) :
  harmless (create_multicast_sock own_ip group_addr).
Proof.
  unfold create_multicast_sock, bind_by_platform.
  harmless_steps_with ltac:(first [apply harmless_sys | apply harmless_socket_inet_aton]).
Qed.

Lemma harmless_connect : harmless connect.
Proof.
  unfold connect, loop_create_datagram_endpoint.
  harmless_steps_with ltac:(apply harmless_create_multicast_sock).
Qed.

Lemma harmless_send (f : KNXIPFrame) : harmless (send f).
Proof. unfold send. harmless_steps. Qed.

Lemma harmless_getsockname : harmless getsockname.
Proof. unfold getsockname. harmless_steps. Qed.

Lemma harmless_getremote : harmless getremote.
Proof. unfold getremote. harmless_steps. Qed.

Lemma harmless_stop : harmless stop.
Proof. unfold stop. harmless_steps. Qed.

(** A harmless method keeps the state well-formed, and keeps out a
    [Callback] object that is not in the list. *)
Lemma harmless_keeps {A} (m : M A) (s : State) :
  harmless m ->
  (wf s -> wf (state_of (m s))) /\
  (forall id, absent id s ->
     absent id (state_of (m s)) /\
     Forall (fun p => cb_id (fst p) <> id) (invoked (trace_of (m s)))).
Proof.
  intros H. destruct (H s) as (Hc & Hn & Hi).
  unfold wf, absent, ids. rewrite Hc, Hn, Hi. split; auto.
Qed.

(** [data_received_callback] keeps the state well-formed and keeps out a
    [Callback] object that is not in the list. *)
Lemma data_received_callback_keeps (fuel : nat) (raw : list byte) (s : State) :
  (wf s -> wf (state_of (data_received_callback handler_code fuel raw s))) /\
  (forall id, absent id s ->
     absent id (state_of (data_received_callback handler_code fuel raw s)) /\
     Forall (fun p => cb_id (fst p) <> id)
       (invoked (trace_of (data_received_callback handler_code fuel raw s)))).
Proof.
  rewrite data_received_callback_eq.
  destruct raw as [|b raw]; [unfold state_of, trace_of; simpl; auto|].
  destruct (from_knx (xknx (self s)) (b :: raw)) as [f|e].
  - destruct (handle_knxipframe_facts handler_code fuel f s) as (_ & Hwf & Hab).
    destruct (handle_knxipframe handler_code fuel f s) as [[[u|e|] s1] t1];
      try destruct e; unfold state_of, trace_of in *; simpl in *;
      rewrite ?invoked_app; simpl; rewrite ?app_nil_r; auto.
  - destruct e; unfold state_of, trace_of; simpl; auto.
Qed.

(** Every call a caller makes keeps the state well-formed and keeps out a
    [Callback] object that is not in the list. *)
Lemma run_call_keeps (fuel : nat) (c : ApiCall) (s : State) :
  (wf s -> wf (state_of (run_call handler_code fuel c s))) /\
  (forall id, absent id s ->
     absent id (state_of (run_call handler_code fuel c s)) /\
     Forall (fun p => cb_id (fst p) <> id)
       (invoked (trace_of (run_call handler_code fuel c s)))).
Proof.
  destruct c as [h types|callb|raw|f| |f| | |]; simpl.
  - pose proof (register_callback_wf h types s) as Hwf.
    pose proof (register_callback_absent h types s) as Hab.
    unfold bindM, ret. rewrite register_callback_eq in *.
    unfold state_of, trace_of in *. simpl in *. auto.
  - pose proof (unregister_callback_wf callb s) as Hwf.
    pose proof (unregister_callback_absent callb s) as Hab.
    rewrite unregister_callback_eq in *.
    destruct (list_remove callb (callbacks (self s)));
      unfold state_of, trace_of in *; simpl in *; auto.
  - apply data_received_callback_keeps.
  - destruct (handle_knxipframe_facts handler_code fuel f s) as (_ & Hwf & Hab). auto.
  - apply harmless_keeps, harmless_connect.
  - apply harmless_keeps, harmless_send.
  - apply harmless_keeps. harmless_steps_with ltac:(apply harmless_getsockname).
  - apply harmless_keeps. harmless_steps_with ltac:(apply harmless_getremote).
  - apply harmless_keeps, harmless_stop.
Qed.

Lemma run_calls_keeps (fuel : nat) (l : list ApiCall) :
  forall s,
    (wf s -> wf (fst (run_calls handler_code fuel l s))) /\
    (forall id, absent id s ->
       absent id (fst (run_calls handler_code fuel l s)) /\
       Forall (fun p => cb_id (fst p) <> id)
         (invoked (snd (run_calls handler_code fuel l s)))).
Proof.
  induction l as [|c rest IH]; intros s; simpl; [auto|].
  destruct (run_call_keeps fuel c s) as (Hwf & Hab).
  destruct (run_call handler_code fuel c s) as [[o s1] t1].
  unfold state_of, trace_of in *. simpl in *.
  destruct (IH s1) as (Hwf' & Hab').
  destruct (run_calls handler_code fuel rest s1) as [s2 t2]. simpl in *.
  destruct o; simpl; rewrite ?invoked_app; split; auto;
    intros id Hid; destruct (Hab id Hid) as [H1 H2]; auto;
    destruct (Hab' id H1) as [H3 H4]; split; auto; apply Forall_app; auto.
Qed.

(** The state of a client as constructed is well-formed, and so is every
    state its caller gets it into. *)
Lemma client_states_are_wf (x : XKNX) (l r : PyVal) (m : bool) (c : UDPClient)
    (fuel : nat) (calls : list ApiCall) :
  __init__ x l r m = Ok c ->
  wf (fst (run_calls handler_code fuel calls (new_state c))).
Proof.
  intros H. apply run_calls_keeps.
  rewrite init_eq in H.
  destruct (isinstance_tuple l && isinstance_tuple r); [|discriminate].
  injection H as <-. split; constructor.
Qed.

(** C8.  In a state a client can be in, unregistering a handle that is in
    the list of registrations returns, and removes that registration and
    no other: the other registrations stay, in their order, also those of
    the same callable under another handle.  From then on, whatever the
    caller does with the client and whatever frames are received or
    dispatched, no callback is called through the removed registration. *)
Theorem unregistered_is_never_called (h : Callback) (s : State) :
  wf s ->
  In (cb_id h) (ids s) ->
  exists s',
    unregister_callback h s = (Ret tt, s', []) /\
    callbacks (self s') = filter (fun cb => negb (same_object cb h)) (callbacks (self s)) /\
    forall fuel calls cb f,
      In (call_callback cb f) (snd (run_calls handler_code fuel calls s')) ->
      cb_id cb <> cb_id h.
Proof.
  intros [Hnd Hlt] Hin.
  rewrite unregister_callback_eq.
  destruct (list_remove h (callbacks (self s))) as [l'|] eqn:E.
  2:{ apply list_remove_None in E. now elim E. }
  destruct (list_remove_NoDup h _ _ Hnd E) as [Hl' Hout].
  eexists. split; [reflexivity|]. split; [exact Hl'|].
  intros fuel calls cb f Hcall.
  apply invoked_In in Hcall.
  match goal with
  | H : In _ (invoked (snd (run_calls _ _ _ ?s'))) |- _ =>
      destruct (run_calls_keeps fuel calls s') as (_ & Hab);
      destruct (Hab (cb_id h)) as [_ Hnever]
  end.
  - split; [exact Hout|]. simpl.
    rewrite Forall_forall in Hlt. now apply Hlt.
  - rewrite Forall_forall in Hnever. now apply (Hnever (cb, f)).
Qed.

End Lifetime.

(** C8 on the client with two registrations, the first of which is
    unregistered. *)
Lemma unregistered_is_never_called_witness :
  exists s',
    unregister_callback Double.first_handle Double.two_listeners = (Ret tt, s', []) /\
    callbacks (self s') =
      filter (fun cb => negb (same_object cb Double.first_handle))
        (callbacks (self Double.two_listeners)) /\
    forall fuel calls cb f,
      In (call_callback cb f)
        (snd (run_calls (host := Double.linux) Double.one_shot fuel calls s')) ->
      cb_id cb <> cb_id Double.first_handle.
Proof.
  apply (unregistered_is_never_called (host := Double.linux) Double.one_shot
           Double.first_handle Double.two_listeners).
  - split.
    + repeat constructor; simpl; intuition discriminate.
    + repeat constructor.
  - simpl. auto.
Defined.

(** ** The scenario of the specification, and two runs that show what the
    provisos above are for *)

(** A client constructed on ("0.0.0.0", 0) for the routing group, connected,
    with one callback registered for search requests: a datagram that
    decodes to a search request has the callback called once. *)
Example scenario_search_request_is_delivered :
  data_received_callback Double.quiet 3 Double.search_request_raw Double.search_listener =
  (Ret tt, Double.search_listener,
   [KNXIPFrame_from_knx Double.search_request_raw;
    knx_logger_debug_Received Double.search_request;
    call_callback Double.search_handle Double.search_request]).
Proof. reflexivity. Qed.

(** A datagram that decodes to a description request has no callback
    called, and its service type logged as unhandled. *)
Example scenario_description_request_is_unhandled :
  data_received_callback Double.quiet 3 Double.description_request_raw
    Double.search_listener =
  (Ret tt, Double.search_listener,
   [KNXIPFrame_from_knx Double.description_request_raw;
    knx_logger_debug_Received Double.description_request;
    logger_debug_UNHANDLED 515%Z]).
Proof. reflexivity. Qed.

(** A callback that raises ends the pass: the registration after it is not
    called, and the exception, which is no [CouldNotParseKNXIP], leaves
    the receive path as well. *)
Example faulty_callback_ends_the_pass :
  data_received_callback Double.faulty 3 Double.search_request_raw
    Double.faulty_then_quiet =
  (Raise ValueError, Double.faulty_then_quiet,
   [KNXIPFrame_from_knx Double.search_request_raw;
    knx_logger_debug_Received Double.search_request;
    call_callback Double.faulty_handle Double.search_request]).
Proof. reflexivity. Qed.

(** The codec double decodes what it encodes. *)
Example codec_double_round_trip :
  py_bytes (to_knx Double.description_request) = Ok Double.description_request_raw /\
  from_knx Double.the_xknx Double.description_request_raw = Ok Double.description_request.
Proof. split; reflexivity. Qed.

(** ** Further properties of connecting, stopping and sending *)

Section Keeps.

Context {knxip : KNXIP} {host : Host}.
Context {X : Type} (F : State -> X) (P : Event -> bool).

Lemma keeps_bindM {A B} (m : M A) (k : A -> M B) :
  keeps F P m -> (forall a, keeps F P (k a)) -> keeps F P (bindM m k).
Proof.
  intros Hm Hk s. unfold bindM.
  destruct (Hm s) as [H1 H2].
  destruct (m s) as [[[a| |] s1] t1]; unfold state_of, trace_of in *; simpl in *; auto.
  destruct (Hk a s1) as [H3 H4].
  destruct (k a s1) as [[o s2] t2]; unfold state_of, trace_of in *; simpl in *.
  rewrite forallb_app, H2, H4. split; [congruence|reflexivity].
Qed.

Lemma keeps_ret {A} (a : A) : keeps F P (ret a).
Proof. intros s. split; reflexivity. Qed.

Lemma keeps_raise {A} (e : Exn) : keeps F P (raise (A := A) e).
Proof. intros s. split; reflexivity. Qed.

Lemma keeps_lift {A} (r : Result A) : keeps F P (lift r).
Proof. destruct r; [apply keeps_ret|apply keeps_raise]. Qed.

Lemma keeps_get_self : keeps F P get_self.
Proof. intros s. split; reflexivity. Qed.

Lemma keeps_emit (e : Event) : P e = true -> keeps F P (emit e).
Proof. intros H s. split; [reflexivity|]. unfold trace_of. simpl. now rewrite H. Qed.

End Keeps.

(** Taking a method apart into steps that keep; [known] closes the steps
    that are methods already shown to keep. *)
Ltac keeps_steps_with known :=
  repeat first
    [ known
    | apply keeps_ret
    | apply keeps_raise
    | apply keeps_lift
    | apply keeps_get_self
    | apply keeps_emit; reflexivity
    | match goal with
      | |- keeps _ _ (if ?b then _ else _) => destruct b
      | |- keeps _ _ (match ?x with _ => _ end) => destruct x
      end
    | apply keeps_bindM; [|intros ?] ].

Section MoreConnect.

Context {knxip : KNXIP} {host : Host}.

(** [create_multicast_sock] touches nothing of the state and causes calls
    on the socket only. *)
Lemma keeps_sys {X} (F : State -> X) (sock : Socket) (c : SockCall) :
  keeps F setup_event (sys sock c).
Proof. unfold sys. keeps_steps_with fail. Qed.

Lemma keeps_socket_inet_aton {X} (F : State -> X) (v : PyVal) :
  keeps F setup_event (socket_inet_aton v).
Proof. unfold socket_inet_aton. keeps_steps_with fail. Qed.

Lemma keeps_create_multicast_sock {X} (F : State -> X) (own_ip group_addr : PyVal) :
  keeps F setup_event (create_multicast_sock own_ip group_addr).
Proof.
  unfold create_multicast_sock, bind_by_platform.
  keeps_steps_with ltac:(first [apply keeps_sys | apply keeps_socket_inet_aton]).
Qed.

(** [connect], case by case. *)
Lemma connect_eq (s : State) :
  connect s =
  match py_getitem (local_addr (self s)) 0 with
  | Err e => (Raise e, s, [])
  | Ok own_ip =>
      if multicast (self s) then
        match create_multicast_sock own_ip (remote_addr (self s)) s with
        | (Ret sock, s1, t1) =>
            if endpoint_ok (over_sock sock)
            then (Ret tt, with_transport (mkTransport (over_sock sock)) s1,
                  t1 ++ [create_datagram_endpoint (over_sock sock)])
            else (Raise OSError, s1, t1 ++ [create_datagram_endpoint (over_sock sock)])
        | (Raise e, s1, t1) => (Raise e, s1, t1)
        | (OutOfFuel, s1, t1) => (OutOfFuel, s1, t1)
        end
      else
        let ep := over_addrs (local_addr (self s)) (remote_addr (self s)) in
        if endpoint_ok ep
        then (Ret tt, with_transport (mkTransport ep) s, [create_datagram_endpoint ep])
        else (Raise OSError, s, [create_datagram_endpoint ep])
  end.
Proof.
  unfold connect, bindM at 1 2, get_self, lift. simpl.
  destruct (py_getitem (local_addr (self s)) 0) as [own_ip|e]; [|reflexivity].
  simpl. destruct (multicast (self s)).
  - unfold bindM at 1, ret. simpl. unfold bindM at 1.
    destruct (create_multicast_sock own_ip (remote_addr (self s)) s) as [[[sock| |] s1] t1];
      try reflexivity.
    unfold bindM, loop_create_datagram_endpoint, bindM, emit, ret, raise. simpl.
    destruct (endpoint_ok (over_sock sock)); reflexivity.
  - unfold bindM, loop_create_datagram_endpoint, bindM, emit, ret, raise. simpl.
    destruct (endpoint_ok _); reflexivity.
Qed.

(** X1.  A [connect] that does not return leaves the client exactly as it
    was: [self.transport] is assigned after the endpoint was opened and
    nowhere else, so a client that was unconnected stays unconnected. *)
Theorem connect_failure_changes_nothing (s : State) :
  outcome_of (connect s) <> Ret tt -> state_of (connect s) = s.
Proof.
  rewrite connect_eq.
  destruct (py_getitem (local_addr (self s)) 0) as [own_ip|e]; [|reflexivity].
  destruct (multicast (self s)).
  - destruct (keeps_create_multicast_sock (fun s => s) own_ip (remote_addr (self s)) s)
      as [Hs _].
    destruct (create_multicast_sock own_ip (remote_addr (self s)) s) as [[[sock| |] s1] t1];
      unfold state_of, outcome_of in *; simpl in *; auto.
    destruct (endpoint_ok (over_sock sock)); simpl; auto.
    intros H. now elim H.
  - simpl. destruct (endpoint_ok _); unfold state_of, outcome_of; simpl; auto.
    intros H. now elim H.
Qed.

(** X2.  All [connect] does to the outside is setting up: calls on the
    socket module and the request to the event loop.  It never closes or
    uses the transport the client may already have; when it returns, the
    transport it has opened has replaced the previous one and nothing
    else of the client has changed. *)
Theorem connect_only_sets_up (s : State) :
  forallb setup_event (trace_of (connect s)) = true /\
  (forall s' t, connect s = (Ret tt, s', t) -> exists tr, s' = with_transport tr s).
Proof.
  rewrite connect_eq. split.
  - destruct (py_getitem (local_addr (self s)) 0) as [own_ip|e]; [|reflexivity].
    destruct (multicast (self s)).
    + destruct (keeps_create_multicast_sock (fun s => s) own_ip (remote_addr (self s)) s)
        as [_ Ht].
      destruct (create_multicast_sock own_ip (remote_addr (self s)) s) as [[[sock| |] s1] t1];
        unfold trace_of in *; simpl in *; auto.
      destruct (endpoint_ok (over_sock sock)); simpl; rewrite forallb_app, Ht; reflexivity.
    + simpl. destruct (endpoint_ok _); reflexivity.
  - intros s' t.
    destruct (py_getitem (local_addr (self s)) 0) as [own_ip|e]; [|discriminate].
    destruct (multicast (self s)).
    + destruct (keeps_create_multicast_sock (fun s => s) own_ip (remote_addr (self s)) s)
        as [Hs _].
      destruct (create_multicast_sock own_ip (remote_addr (self s)) s) as [[[sock| |] s1] t1];
        unfold state_of in *; simpl in *; try discriminate.
      destruct (endpoint_ok (over_sock sock)); [|discriminate].
      intros H. injection H as <- <-. subst s1. eauto.
    + simpl. destruct (endpoint_ok _); [|discriminate].
      intros H. injection H as <- <-. eauto.
Qed.

(** X3.  [connect] reads [self.local_addr[0]] before anything else: on a
    client whose [local_addr] has no first item it raises what that
    indexing raises, without a call on the socket module or the event
    loop and without touching the client.  The constructor accepts the
    empty tuple, so such a client exists and fails with [IndexError] at
    [connect]. *)
Theorem connect_needs_a_local_host (x : XKNX) (r : PyVal) (m : bool) :
  isinstance_tuple r = true ->
  (forall s e,
     py_getitem (local_addr (self s)) 0 = Err e -> connect s = (Raise e, s, [])) /\
  __init__ x (PyTuple []) r m = Ok (mkUDPClient x (PyTuple []) r m None []) /\
  connect (new_state (mkUDPClient x (PyTuple []) r m None [])) =
  (Raise IndexError, new_state (mkUDPClient x (PyTuple []) r m None []), []).
Proof.
  intros Hr. split; [|split].
  - intros s e He. now rewrite connect_eq, He.
  - unfold __init__. simpl. now rewrite Hr.
  - now rewrite connect_eq.
Qed.

Lemma sys_eq (sock : Socket) (c : SockCall) (s : State) :
  sys sock c s =
  if syscall_ok sock c then (Ret (sock ++ [c]), s, [sys_call c])
  else (Raise OSError, s, [sys_call c]).
Proof.
  unfold sys, bindM, emit, ret, raise. simpl.
  destruct (syscall_ok sock c); reflexivity.
Qed.

(** How a list of calls on a socket ends: all were accepted, or one was
    refused, which then is the last one made. *)
Lemma configure_cases (calls : list SockCall) :
  forall (sock : Socket) (s : State),
    state_of (configure sock calls s) = s /\
    ((outcome_of (configure sock calls s) = Ret (sock ++ calls) /\
      trace_of (configure sock calls s) = map sys_call calls /\
      os_accepts sock calls = true) \/
     (exists pre c post,
        calls = pre ++ c :: post /\
        outcome_of (configure sock calls s) = Raise OSError /\
        trace_of (configure sock calls s) = map sys_call (pre ++ [c]) /\
        os_accepts sock pre = true /\
        syscall_ok (sock ++ pre) c = false)).
Proof.
  induction calls as [|c rest IH]; intros sock s; simpl.
  - unfold ret, state_of, outcome_of, trace_of. simpl.
    split; [reflexivity|]. left. now rewrite app_nil_r.
  - unfold bindM. rewrite sys_eq.
    destruct (syscall_ok sock c) eqn:Hc.
    + destruct (IH (sock ++ [c]) s) as [Hs Hcases].
      destruct (configure (sock ++ [c]) rest s) as [[o s1] t1].
      unfold state_of, outcome_of, trace_of in *. simpl in *.
      split; [exact Hs|].
      destruct Hcases as [(-> & -> & Hok)|(pre & c' & post & -> & -> & -> & Hok & Hno)].
      * left. now rewrite <- app_assoc.
      * right. exists (c :: pre), c', post. simpl.
        rewrite <- app_assoc in Hno. simpl in Hno. rewrite Hok, Hc. auto.
    + unfold state_of, outcome_of, trace_of. simpl.
      split; [reflexivity|]. right. exists [], c, rest. simpl.
      rewrite app_nil_r. auto.
Qed.

Lemma bindM_sys_ext {B} (sock : Socket) (c : SockCall) (k1 k2 : Socket -> M B) (s : State) :
  (forall sock' s', k1 sock' s' = k2 sock' s') ->
  bindM (sys sock c) k1 s = bindM (sys sock c) k2 s.
Proof.
  intros H. unfold bindM.
  destruct (sys sock c s) as [[[sock'| |] s1] t1]; try reflexivity.
  now rewrite H.
Qed.

Lemma bindM_ret_l {A B} (a : A) (k : A -> M B) (s : State) :
  bindM (ret a) k s = k a s.
Proof. unfold bindM, ret. destruct (k a s) as [[o s2] t2]. reflexivity. Qed.

Lemma bindM_assoc {A B C} (m : M A) (k1 : A -> M B) (k2 : B -> M C) (s : State) :
  bindM (bindM m k1) k2 s = bindM m (fun a => bindM (k1 a) k2) s.
Proof.
  unfold bindM.
  destruct (m s) as [[[a| |] s1] t1]; try reflexivity.
  destruct (k1 a s1) as [[[b| |] s2] t2]; try reflexivity.
  destruct (k2 b s2) as [[o s3] t3]. now rewrite app_assoc.
Qed.

(** With addresses that can be packed, [create_multicast_sock] is the
    making of the calls of the specification's configuration. *)
Lemma create_multicast_sock_configures (own_str group_str : string) (port : PyVal)
    (own group : list byte) (group_addr : PyVal) (s : State) :
  py_getitem group_addr 0 = Ok (PyStr group_str) ->
  py_getitem group_addr 1 = Ok port ->
  inet_aton own_str = Some own ->
  inet_aton group_str = Some group ->
  create_multicast_sock (PyStr own_str) group_addr s =
  configure [] (spec_multicast_config platform own group (PyStr group_str) port) s.
Proof.
  intros H0 H1 Ho Hg.
  unfold create_multicast_sock, bind_by_platform, spec_multicast_config, spec_bind_policy,
    socket_inet_aton, lift.
  rewrite ?H0, ?H1, ?Ho, ?Hg.
  destruct (platform =? "win32")%string; [|destruct (platform =? "darwin")%string];
    cbn [app configure];
    repeat first
      [ rewrite bindM_assoc
      | rewrite bindM_ret_l
      | progress rewrite ?H0, ?H1, ?Ho, ?Hg
      | progress cbv beta iota
      | apply bindM_sys_ext; intros ? ?; cbn [configure] ];
    reflexivity.
Qed.

(** X4.  With addresses that can be packed and a port that is an integer
    in 0..65535 (arguments of the types the calls on the socket expect, so
    that a call the operating system does not accept fails with [OSError]),
    [create_multicast_sock] makes the calls of the configuration in order
    and stops at the first one that is refused: either all were accepted
    and the socket is returned, or [OSError] is raised and the refused call
    is the last one made, none of the later ones having been tried.  The
    client is not touched in either case. *)
Theorem create_multicast_sock_stops_at_refusal (own_str group_str : string) (p : Z)
    (own group : list byte) (group_addr : PyVal) (s : State) :
  py_getitem group_addr 0 = Ok (PyStr group_str) ->
  py_getitem group_addr 1 = Ok (PyInt p) ->
  (0 <= p <= 65535)%Z ->
  inet_aton own_str = Some own ->
  inet_aton group_str = Some group ->
  state_of (create_multicast_sock (PyStr own_str) group_addr s) = s /\
  ((outcome_of (create_multicast_sock (PyStr own_str) group_addr s) =
      Ret (spec_multicast_config platform own group (PyStr group_str) (PyInt p)) /\
    trace_of (create_multicast_sock (PyStr own_str) group_addr s) =
      map sys_call (spec_multicast_config platform own group (PyStr group_str) (PyInt p)) /\
    os_accepts [] (spec_multicast_config platform own group (PyStr group_str) (PyInt p))
      = true) \/
   (exists pre c post,
      spec_multicast_config platform own group (PyStr group_str) (PyInt p)
        = pre ++ c :: post /\
      outcome_of (create_multicast_sock (PyStr own_str) group_addr s) = Raise OSError /\
      trace_of (create_multicast_sock (PyStr own_str) group_addr s) =
        map sys_call (pre ++ [c]) /\
      os_accepts [] pre = true /\
      syscall_ok pre c = false)).
Proof.
  intros H0 H1 _ Ho Hg.
  rewrite (create_multicast_sock_configures _ _ _ _ _ _ _ H0 H1 Ho Hg).
  apply (configure_cases _ [] s).
Qed.

(** X5.  [stop] can be repeated: on a client with a transport, every
    [stop] closes that same transport once more and returns, and the
    client, its transport included, stays as it was. *)
Theorem stop_is_repeatable (handler_code : Handler -> KNXIPFrame -> State -> list Action)
    (fuel n : nat) (s : State) (t : Transport) :
  transport (self s) = Some t ->
  run_calls handler_code fuel (repeat api_stop n) s = (s, repeat (transport_close t) n).
Proof.
  intros Ht. induction n as [|n IH]; simpl; [reflexivity|].
  rewrite stop_eq, Ht, IH. reflexivity.
Qed.

(** X6.  [send] makes at most one call on the transport.  It makes none
    when it raises the transport-not-connected error or the [ValueError]
    of [bytes(...)]: the log record of the frame is then its only event.
    Otherwise it makes exactly one [sendto], with the bytes of the frame,
    and ends as that call ends: it returns when the call returns and
    raises what the call raises.  It does not change the client in any
    case. *)
Theorem send_calls_the_transport_at_most_once (sendto_ends : option Exn)
    (f : KNXIPFrame) (s : State) :
  state_of (send_with sendto_ends f s) = s /\
  ((exists e,
      (transport (self s) = None /\ e = XKNXException "Transport not connected" \/
       transport (self s) <> None /\ e = ValueError) /\
      send_with sendto_ends f s = (Raise e, s, [knx_logger_debug_Sending f])) \/
   (exists t data,
      transport (self s) = Some t /\
      py_bytes (to_knx f) = Ok data /\
      send_with sendto_ends f s =
      (match sendto_ends with
       | None => Ret tt
       | Some e => Raise e
       end, s,
       [knx_logger_debug_Sending f;
        transport_sendto t data
          (if multicast (self s) then Some (remote_addr (self s)) else None)]))).
Proof.
  rewrite send_with_eq.
  destruct (transport (self s)) as [t|].
  - destruct (py_bytes (to_knx f)) as [data|e] eqn:E.
    + split; [reflexivity|]. right. eauto.
    + split; [reflexivity|]. left. apply py_bytes_error in E. subst e.
      exists ValueError. split; [right; split; [discriminate|reflexivity]|reflexivity].
  - split; [reflexivity|]. left. eauto.
Qed.

End MoreConnect.

(** X1 on the client whose [local_addr] is the empty tuple. *)
Lemma connect_failure_changes_nothing_witness :
  state_of (connect (host := Double.linux) (new_state Cases.nowhere_client)) =
  new_state Cases.nowhere_client.
Proof.
  apply (connect_failure_changes_nothing (host := Double.linux)
           (new_state Cases.nowhere_client)).
  discriminate.
Defined.

(** X2 on a client that is connected already. *)
Lemma connect_only_sets_up_witness :
  exists tr,
    state_of (connect (host := Double.linux) Double.connected_unicast) =
    with_transport tr Double.connected_unicast.
Proof.
  apply (proj2 (connect_only_sets_up (host := Double.linux) Double.connected_unicast)
           _ (trace_of (connect (host := Double.linux) Double.connected_unicast))).
  reflexivity.
Defined.

(** X3 with the routing group as the remote address. *)
Lemma connect_needs_a_local_host_witness :
  connect (host := Double.linux) (new_state Cases.nowhere_client) =
  (Raise IndexError, new_state Cases.nowhere_client, []).
Proof.
  apply (connect_needs_a_local_host (host := Double.linux)
           Double.the_xknx Double.routing_group false).
  reflexivity.
Defined.

(** X4 on a host that refuses to join the group: the fifth call is the last
    one made. *)
Lemma create_multicast_sock_stops_at_refusal_witness :
  state_of (create_multicast_sock (host := Cases.no_membership)
              (PyStr "0.0.0.0") Double.routing_group Double.connected_unicast) =
    Double.connected_unicast /\
  outcome_of (create_multicast_sock (host := Cases.no_membership)
                (PyStr "0.0.0.0") Double.routing_group Double.connected_unicast) =
    Raise OSError /\
  List.length (trace_of (create_multicast_sock (host := Cases.no_membership)
                           (PyStr "0.0.0.0") Double.routing_group
                           Double.connected_unicast)) = 5.
Proof.
  destruct (create_multicast_sock_stops_at_refusal (host := Cases.no_membership)
              "0.0.0.0" "224.0.23.12" 3671%Z
              [x00; x00; x00; x00] [xe0; x00; x17; x0c]
              Double.routing_group Double.connected_unicast
              eq_refl eq_refl ltac:(lia) eq_refl eq_refl) as [Hs _].
  split; [exact Hs|]. split; reflexivity.
Defined.

(** X5 on the connected unicast client, stopped three times. *)
Lemma stop_is_repeatable_witness :
  run_calls (host := Double.linux) Double.quiet 3 [api_stop; api_stop; api_stop]
    Double.connected_unicast =
  (Double.connected_unicast,
   repeat
     (transport_close
        (mkTransport
           (over_addrs Double.lan_local (PyTuple [PyStr "192.168.1.20"; PyInt 3671%Z]))))
     3).
Proof.
  apply (stop_is_repeatable (host := Double.linux) Double.quiet 3 3
           Double.connected_unicast).
  reflexivity.
Defined.

(** ** Further properties of registering, dispatching and receiving *)

Section MoreRegistry.

Context {knxip : KNXIP}.

Lemma list_remove_last (l : list Callback) (x : Callback) :
  ~ In (cb_id x) (map cb_id l) -> list_remove x (l ++ [x]) = Some l.
Proof.
  induction l as [|y l IH]; simpl; intros Hn.
  - unfold same_object. now rewrite Nat.eqb_refl.
  - unfold same_object. destruct (cb_id y =? cb_id x) eqn:E.
    + apply Nat.eqb_eq in E. exfalso. auto.
    + rewrite IH; auto.
Qed.

(** X7.  Registering and then unregistering the handle returned is a round
    trip: both return, and the client is exactly as before, with its
    registrations in their order; all that remains is that the identity of
    the object created is used up. *)
Theorem register_unregister_round_trip (h : Handler) (types : option (list ServiceType))
    (s : State) :
  wf s ->
  exists callb s1,
    register_callback h types s = (Ret callb, s1, []) /\
    unregister_callback callb s1 = (Ret tt, mkState (self s) (S (next_id s)), []).
Proof.
  intros [_ Hlt].
  rewrite register_callback_eq. do 2 eexists. split; [reflexivity|].
  rewrite unregister_callback_eq. simpl.
  rewrite list_remove_last.
  - destruct s as [[x l r m t cbs] n]. reflexivity.
  - intros Hin. rewrite Forall_forall in Hlt. apply Hlt in Hin.
    destruct types as [[|]|]; simpl in Hin; lia.
Qed.

End MoreRegistry.

(** X7 on the client with two registrations. *)
Lemma register_unregister_round_trip_witness :
  exists callb s1,
    register_callback 4 (Some [513%Z; 515%Z]) Double.two_listeners = (Ret callb, s1, []) /\
    unregister_callback callb s1 =
    (Ret tt, mkState (self Double.two_listeners) (S (next_id Double.two_listeners)), []).
Proof.
  apply (register_unregister_round_trip 4 (Some [513%Z; 515%Z]) Double.two_listeners).
  split.
  - repeat constructor; simpl; intuition discriminate.
  - repeat constructor.
Defined.

Section MoreDispatch.

Context {knxip : KNXIP}.
Variable handler_code : Handler -> KNXIPFrame -> State -> list Action.

Local Abbreviation loop := (for_callback_in_callbacks handler_code).
Local Abbreviation handle := (handle_knxipframe handler_code).
Local Abbreviation receive := (data_received_callback handler_code).
Local Abbreviation sti := service_type_ident.

Lemma listening_app (st : ServiceType) (l1 l2 : list Callback) :
  listening st (l1 ++ l2) = listening st l1 ++ listening st l2.
Proof. apply filter_app. Qed.


Local Arguments skipn : simpl never.

(** With callbacks that each register one more callback without a filter
    when called, the loop does not end once it has a listening registration
    before it. *)
Lemma loop_over_growing_list (f : KNXIPFrame) :
  (forall h s, handler_code h f s = [do_register_callback h None]) ->
  forall (fuel i : nat) (b : bool) (s : State),
    listening (sti f) (skipn i (callbacks (self s))) <> [] ->
    outcome_of (loop fuel f i b s) = OutOfFuel.
Proof.
  intros Hcode. induction fuel as [|fuel IH]; intros i b s Hl; [reflexivity|].
  rewrite loop_step.
  destruct (nth_error (callbacks (self s)) i) as [cb|] eqn:Hnth.
  2:{ rewrite (skipn_nth_error_None _ _ Hnth) in Hl. now elim Hl. }
  assert (Hi : S i <= List.length (callbacks (self s))).
  { apply Nat.le_succ_l. apply nth_error_Some. congruence. }
  rewrite (skipn_nth_error _ _ _ Hnth) in Hl.
  unfold listening in Hl. simpl in Hl.
  destruct (has_service cb (sti f)).
  - rewrite Hcode. cbn [run_actions run_action]. unfold bindM, ret.
    rewrite register_callback_eq. cbn [app].
    set (s1 := mkState _ _).
    specialize (IH (S i) true s1).
    destruct (for_callback_in_callbacks handler_code fuel f (S i) true s1) as [[o s2] t2].
    unfold outcome_of in *. simpl in *. apply IH.
    rewrite skipn_app, listening_app.
    replace (S i - List.length (callbacks (self s))) with 0 by lia.
    intros H. apply app_eq_nil in H. destruct H as [_ H]. discriminate.
  - now apply IH.
Qed.

(** X9.  The loop runs over the list as it is when each position is
    reached, so what callbacks append is visited in the same pass: when
    every callback called registers one more callback without a filter,
    the dispatch of a frame some registration listens for never ends,
    whatever the number of iterations allowed. *)
Theorem dispatch_over_growing_list_never_ends (f : KNXIPFrame) (s : State) :
  (forall h s', handler_code h f s' = [do_register_callback h None]) ->
  listening (sti f) (callbacks (self s)) <> [] ->
  forall fuel, outcome_of (handle fuel f s) = OutOfFuel.
Proof.
  intros Hcode Hl fuel.
  pose proof (loop_over_growing_list f Hcode fuel 0 false s Hl) as H.
  rewrite handle_knxipframe_eq.
  destruct (for_callback_in_callbacks handler_code fuel f 0 false s) as [[[[|]| |] s1] t1];
    unfold outcome_of in *; simpl in *; try discriminate; reflexivity.
Qed.

(** X10.  [data_received_callback] never raises [CouldNotParseKNXIP]:
    its [try] covers the dispatch as well as the decoding, so a
    [CouldNotParseKNXIP] raised by a callback is caught and logged like
    that of a malformed datagram, after which the method returns; the
    callbacks after the one that raised have not been called.  Any other
    exception of the codec or of a callback leaves the method. *)
Theorem receive_swallows_CouldNotParseKNXIP (fuel : nat) (raw : list byte) (s : State) :
  (forall msg, outcome_of (receive fuel raw s) <> Raise (CouldNotParseKNXIP msg)) /\
  (forall f msg,
     raw <> [] ->
     from_knx (xknx (self s)) raw = Ok f ->
     outcome_of (handle fuel f s) = Raise (CouldNotParseKNXIP msg) ->
     receive fuel raw s =
     (Ret tt, state_of (handle fuel f s),
      (KNXIPFrame_from_knx raw :: knx_logger_debug_Received f :: trace_of (handle fuel f s))
      ++ [logger_exception (CouldNotParseKNXIP msg)])) /\
  (forall f e,
     raw <> [] ->
     from_knx (xknx (self s)) raw = Ok f ->
     outcome_of (handle fuel f s) = Raise e ->
     (forall msg, e <> CouldNotParseKNXIP msg) ->
     outcome_of (receive fuel raw s) = Raise e) /\
  (forall e,
     raw <> [] ->
     from_knx (xknx (self s)) raw = Err e ->
     (forall msg, e <> CouldNotParseKNXIP msg) ->
     receive fuel raw s = (Raise e, s, [KNXIPFrame_from_knx raw])).
Proof.
  rewrite data_received_callback_eq.
  split; [|split; [|split]].
  - intros msg. destruct raw as [|b raw]; [discriminate|].
    destruct (from_knx (xknx (self s)) (b :: raw)) as [f|e].
    + destruct (handle_knxipframe handler_code fuel f s) as [[[u|e|] s1] t1];
        try destruct e; discriminate.
    + destruct e; discriminate.
  - intros f msg Hraw Hdec. destruct raw as [|b raw]; [now elim Hraw|]. rewrite Hdec.
    destruct (handle_knxipframe handler_code fuel f s) as [[[u|e|] s1] t1];
      unfold outcome_of, state_of, trace_of; simpl; try discriminate.
    intros H. injection H as ->. reflexivity.
  - intros f e Hraw Hdec. destruct raw as [|b raw]; [now elim Hraw|]. rewrite Hdec.
    destruct (handle_knxipframe handler_code fuel f s) as [[[u|e'|] s1] t1];
      unfold outcome_of; simpl; try discriminate.
    intros H Hne. injection H as ->.
    destruct e; try reflexivity. now elim (Hne msg).
  - intros e Hraw Hdec Hne. destruct raw as [|b raw]; [now elim Hraw|]. rewrite Hdec.
    destruct e; try reflexivity. now elim (Hne msg).
Qed.

End MoreDispatch.


(** X9 on the client with two registrations whose callbacks register
    themselves again, with a thousand iterations allowed. *)
Lemma dispatch_over_growing_list_never_ends_witness :
  outcome_of (handle_knxipframe Cases.echo 1000 Double.search_request
                Double.two_listeners) = OutOfFuel.
Proof.
  apply (dispatch_over_growing_list_never_ends Cases.echo Double.search_request
           Double.two_listeners).
  - reflexivity.
  - discriminate.
Defined.

(** X10 on a callback that raises [CouldNotParseKNXIP] for a well-formed
    search request. *)
Lemma receive_swallows_CouldNotParseKNXIP_witness :
  data_received_callback Cases.confused 3 Double.search_request_raw
    Cases.confused_listener =
  (Ret tt, Cases.confused_listener,
   [KNXIPFrame_from_knx Double.search_request_raw;
    knx_logger_debug_Received Double.search_request;
    call_callback (mkCallback 0 5 []) Double.search_request;
    logger_exception (CouldNotParseKNXIP "not for me")]).
Proof.
  apply (proj1 (proj2 (receive_swallows_CouldNotParseKNXIP Cases.confused 3
                         Double.search_request_raw Cases.confused_listener))
           Double.search_request "not for me"%string).
  - discriminate.
  - reflexivity.
  - reflexivity.
Defined.

Section MoreLifetime.

Context {knxip : KNXIP} {host : Host}.
Variable handler_code : Handler -> KNXIPFrame -> State -> list Action.

Local Abbreviation anything := (fun _ : Event => true).

(** X11.  In every state a constructed client gets into, by whatever calls
    of its caller and of the callbacks, no [Callback] object is in the list
    of registrations twice, and the object the next [register_callback]
    creates is not in the list: a handle stands for one registration. *)
Theorem registrations_stay_distinct (x : XKNX) (l r : PyVal) (m : bool) (c : UDPClient)
    (fuel : nat) (calls : list ApiCall) :
  __init__ x l r m = Ok c ->
  NoDup (ids (fst (run_calls handler_code fuel calls (new_state c)))) /\
  forall h types callb s1 t,
    register_callback h types (fst (run_calls handler_code fuel calls (new_state c))) =
      (Ret callb, s1, t) ->
    ~ In (cb_id callb) (ids (fst (run_calls handler_code fuel calls (new_state c)))).
Proof.
  intros H.
  destruct (client_states_are_wf handler_code x l r m c fuel calls H) as [Hnd Hlt].
  split; [exact Hnd|].
  intros h types callb s1 t. rewrite register_callback_eq.
  intros Heq. injection Heq as <- _ _.
  intros Hin. rewrite Forall_forall in Hlt. apply Hlt in Hin.
  destruct types as [[|]|]; simpl in Hin; lia.
Qed.

Lemma keeps_weaken {A X} (F : State -> X) (P Q : Event -> bool) (m : M A) :
  (forall e, P e = true -> Q e = true) -> keeps F P m -> keeps F Q m.
Proof.
  intros HPQ Hm s. destruct (Hm s) as [H1 H2]. split; [exact H1|].
  rewrite forallb_forall in *. auto.
Qed.

Lemma keeps_register_callback (h : Handler) (types : option (list ServiceType)) :
  keeps connection anything (register_callback h types).
Proof.
  intros s. rewrite register_callback_eq. split; reflexivity.
Qed.

Lemma keeps_unregister_callback (callb : Callback) :
  keeps connection anything (unregister_callback callb).
Proof.
  intros s. rewrite unregister_callback_eq.
  destruct (list_remove callb (callbacks (self s))); split; reflexivity.
Qed.

Lemma keeps_send {X} (F : State -> X) (f : KNXIPFrame) : keeps F anything (send f).
Proof. unfold send. keeps_steps_with fail. Qed.

Lemma keeps_run_actions (acts : list Action) : keeps connection anything (run_actions acts).
Proof.
  induction acts as [|a rest IH]; simpl; [apply keeps_ret|].
  apply keeps_bindM; [|intros _; exact IH].
  destruct a; simpl.
  - apply keeps_bindM; [apply keeps_register_callback|intros _; apply keeps_ret].
  - apply keeps_unregister_callback.
  - apply keeps_send.
  - apply keeps_raise.
Qed.

Lemma keeps_call (cb : Callback) (f : KNXIPFrame) :
  keeps connection anything (call handler_code cb f).
Proof.
  unfold call. apply keeps_bindM; [apply keeps_emit; reflexivity|].
  intros _ s. apply keeps_run_actions.
Qed.

Lemma keeps_loop (fuel : nat) (f : KNXIPFrame) :
  forall i b, keeps connection anything (for_callback_in_callbacks handler_code fuel f i b).
Proof.
  induction fuel as [|fuel IH]; intros i b.
  - intros s. split; reflexivity.
  - simpl. apply keeps_bindM; [apply keeps_get_self|intros c].
    destruct (nth_error (callbacks c) i) as [cb|]; [|apply keeps_ret].
    destruct (has_service cb (service_type_ident f)); [|apply IH].
    apply keeps_bindM; [apply keeps_call|intros _; apply IH].
Qed.

Lemma keeps_handle_knxipframe (fuel : nat) (f : KNXIPFrame) :
  keeps connection anything (handle_knxipframe handler_code fuel f).
Proof.
  unfold handle_knxipframe.
  apply keeps_bindM; [apply keeps_loop|intros b].
  destruct b; simpl; [apply keeps_ret|apply keeps_emit; reflexivity].
Qed.

Lemma keeps_try_except {X} (F : State -> X) (m : M unit) (h : Exn -> M unit) :
  keeps F anything m -> (forall e, keeps F anything (h e)) ->
  keeps F anything (try_except_CouldNotParseKNXIP m h).
Proof.
  intros Hm Hh s. unfold try_except_CouldNotParseKNXIP.
  destruct (Hm s) as [H1 _].
  destruct (m s) as [[[u|e|] s1] t1]; unfold state_of, trace_of in *; simpl in *;
    try (split; [exact H1|apply forallb_forall; reflexivity]).
  destruct e; simpl; try (split; [exact H1|apply forallb_forall; reflexivity]).
  destruct (Hh (CouldNotParseKNXIP msg) s1) as [H3 _].
  destruct (h (CouldNotParseKNXIP msg) s1) as [[o s2] t2];
    unfold state_of, trace_of in *; simpl in *.
  split; [congruence|apply forallb_forall; reflexivity].
Qed.

Lemma keeps_data_received_callback (fuel : nat) (raw : list byte) :
  keeps connection anything (data_received_callback handler_code fuel raw).
Proof.
  unfold data_received_callback. destruct raw as [|b raw]; [apply keeps_ret|].
  apply keeps_try_except.
  - keeps_steps_with ltac:(apply keeps_handle_knxipframe).
  - intros e. apply keeps_emit. reflexivity.
Qed.

Lemma anything_holds (t : list Event) : forallb anything t = true.
Proof. apply forallb_forall. reflexivity. Qed.

Lemma keeps_connect : keeps configuration anything connect.
Proof.
  intros s. split; [|apply anything_holds].
  rewrite connect_eq.
  destruct (py_getitem (local_addr (self s)) 0) as [own_ip|e]; [|reflexivity].
  destruct (multicast (self s)) eqn:Hm.
  - destruct (keeps_create_multicast_sock (fun s => s) own_ip (remote_addr (self s)) s)
      as [Hs _].
    destruct (create_multicast_sock own_ip (remote_addr (self s)) s) as [[[sock| |] s1] t1];
      unfold state_of in *; simpl in *; subst s1; try reflexivity.
    destruct (endpoint_ok (over_sock sock)); reflexivity.
  - simpl. destruct (endpoint_ok _); reflexivity.
Qed.

Lemma keeps_connection_configuration {A} (m : M A) :
  keeps connection anything m -> keeps configuration anything m.
Proof.
  intros H s. destruct (H s) as [H1 H2]. split; [|exact H2].
  unfold connection in H1. congruence.
Qed.

(** Every call but [connect] keeps the connection. *)
Lemma run_call_keeps_connection (fuel : nat) (c : ApiCall) :
  c <> api_connect -> keeps connection anything (run_call handler_code fuel c).
Proof.
  destruct c; simpl; intros Hc.
  - apply keeps_bindM; [apply keeps_register_callback|intros _; apply keeps_ret].
  - apply keeps_unregister_callback.
  - apply keeps_data_received_callback.
  - apply keeps_handle_knxipframe.
  - now elim Hc.
  - apply keeps_send.
  - unfold getsockname. keeps_steps_with fail.
  - unfold getremote. keeps_steps_with fail.
  - unfold stop. keeps_steps_with fail.
Qed.

Lemma ApiCall_is_connect (c : ApiCall) : c = api_connect \/ c <> api_connect.
Proof. destruct c; (left; reflexivity) || (right; discriminate). Qed.

Lemma run_calls_keep {X} (F : State -> X) (fuel : nat) (calls : list ApiCall) :
  (forall c, In c calls -> keeps F anything (run_call handler_code fuel c)) ->
  forall s, F (fst (run_calls handler_code fuel calls s)) = F s.
Proof.
  induction calls as [|c rest IH]; intros Hk s; simpl; [reflexivity|].
  destruct (Hk c (or_introl eq_refl) s) as [H1 _].
  destruct (run_call handler_code fuel c s) as [[o s1] t1].
  unfold state_of in H1. simpl in H1.
  assert (H2 : F (fst (run_calls handler_code fuel rest s1)) = F s1).
  { apply IH. intros c' Hc'. apply Hk. now right. }
  destruct (run_calls handler_code fuel rest s1) as [s2 t2]. simpl in *.
  destruct o; simpl; congruence.
Qed.

(** X12.  What the constructor fixed stays fixed: whatever the caller and
    the callbacks do with a client, its [xknx], [local_addr], [remote_addr]
    and [multicast] are those it was constructed with.  And [connect] is
    the only method that assigns [transport]: over calls that are not
    [connect], the transport stays the one it was, or absent. *)
Theorem configuration_is_fixed (fuel : nat) (calls : list ApiCall) (s : State) :
  configuration (fst (run_calls handler_code fuel calls s)) = configuration s /\
  (~ In api_connect calls ->
   transport (self (fst (run_calls handler_code fuel calls s))) = transport (self s)).
Proof.
  split.
  - apply run_calls_keep. intros c _.
    destruct (ApiCall_is_connect c) as [->|Hc].
    + apply keeps_connect.
    + apply keeps_connection_configuration. now apply run_call_keeps_connection.
  - intros Hn.
    assert (H : connection (fst (run_calls handler_code fuel calls s)) = connection s).
    { apply run_calls_keep. intros c Hc. apply run_call_keeps_connection.
      intros ->. now apply Hn. }
    unfold connection in H. congruence.
Qed.

End MoreLifetime.

(** X11 on a client that registers a one-shot callback, connects and
    receives a search request. *)
Lemma registrations_stay_distinct_witness :
  NoDup (ids (fst (run_calls (host := Double.linux) Double.one_shot 3
                     [api_register_callback 7 None;
                      api_register_callback 1 None;
                      api_connect;
                      api_data_received_callback Double.search_request_raw]
                     (new_state Double.multicast_client)))).
Proof.
  apply (registrations_stay_distinct (host := Double.linux) Double.one_shot
           Double.the_xknx Double.any_local Double.routing_group true
           Double.multicast_client 3).
  reflexivity.
Defined.

(** X12 on the connected unicast client: stopping, sending, registering and
    receiving leave the transport in place. *)
Lemma configuration_is_fixed_witness :
  transport (self (fst (run_calls (host := Double.linux) Double.one_shot 3
                          [api_stop;
                           api_send Double.search_request;
                           api_register_callback 7 None;
                           api_data_received_callback Double.search_request_raw]
                          Double.connected_unicast))) =
  transport (self Double.connected_unicast).
Proof.
  apply (configuration_is_fixed (host := Double.linux) Double.one_shot 3
           [api_stop;
            api_send Double.search_request;
            api_register_callback 7 None;
            api_data_received_callback Double.search_request_raw]
           Double.connected_unicast).
  simpl. intuition discriminate.
Defined.

(** ** Properties of the protocol object *)

Section MoreFactory.

Context {knxip : KNXIP}.
Variable handler_code : Handler -> KNXIPFrame -> State -> list Action.

Lemma connection_made_sets_nothing_else (ts : list Transport) :
  forall f,
    set_from_outside (fold_left connection_made ts f) = set_from_outside f.
Proof.
  induction ts as [|t ts IH]; intros f; simpl; [reflexivity|].
  now rewrite IH.
Qed.

(** X13.  A factory as [__init__] builds it has no attribute [xknx], and
    [connection_made] sets none: so, however many connections were made,
    [error_received] and [connection_lost] log nothing and do nothing, for
    any error and for a connection lost with or without one. *)
Theorem factory_logs_no_error (own_ip : PyVal) (multicast : bool)
    (hook : option (list byte -> M unit)) (ts : list Transport)
    (exc : Exn) (lost : option Exn) :
  error_received
    (fold_left connection_made ts (UDPClientFactory_init own_ip multicast hook)) exc = [] /\
  connection_lost
    (fold_left connection_made ts (UDPClientFactory_init own_ip multicast hook)) lost = [].
Proof.
  unfold error_received, connection_lost, hasattr.
  rewrite connection_made_sets_nothing_else. simpl. split; reflexivity.
Qed.

(** X14.  The factory [connect] builds hands every datagram to the
    client's [data_received_callback] after having logged it with the raw
    socket logger: the outcome and the state are those of
    [data_received_callback], and its events follow the log record.  An
    empty datagram is logged and dropped.  Connections made do not change
    that.  A factory without a callback only logs. *)
Theorem factory_forwards_datagrams (fuel : nat) (c : UDPClient) (f : UDPClientFactory)
    (ts : list Transport) (data : list byte) (addr : PyVal) (s : State) :
  factory_of_connect handler_code fuel c = Ok f ->
  UDPClientFactory_datagram_received (fold_left connection_made ts f) data addr s =
    (outcome_of (data_received_callback handler_code fuel data s),
     state_of (data_received_callback handler_code fuel data s),
     raw_socket_logger_debug_Received addr data
     :: trace_of (data_received_callback handler_code fuel data s)) /\
  UDPClientFactory_datagram_received (fold_left connection_made ts f) data addr s =
    datagram_received handler_code fuel data addr s /\
  (data = [] ->
   UDPClientFactory_datagram_received (fold_left connection_made ts f) data addr s =
   (Ret tt, s, [raw_socket_logger_debug_Received addr data])) /\
  UDPClientFactory_datagram_received
    (UDPClientFactory_init (own_ip f) (factory_multicast f) None) data addr s =
  (Ret tt, s, [raw_socket_logger_debug_Received addr data]).
Proof.
  intros Hf. unfold factory_of_connect in Hf.
  destruct (py_getitem (local_addr c) 0) as [ip|e]; [|discriminate].
  injection Hf as <-.
  assert (Hhook : forall ts f0,
            factory_data_received_callback (fold_left connection_made ts f0) =
            factory_data_received_callback f0).
  { induction ts0 as [|t ts0 IH]; intros f0; simpl; [reflexivity|]. now rewrite IH. }
  unfold UDPClientFactory_datagram_received, datagram_received.
  rewrite Hhook. simpl.
  split; [|split; [reflexivity|split; [|reflexivity]]].
  - unfold bindM, emit. simpl.
    destruct (data_received_callback handler_code fuel data s) as [[o s1] t1].
    reflexivity.
  - intros ->. reflexivity.
Qed.

End MoreFactory.

(** X14 on the factory of the multicast client, for an empty datagram. *)
Lemma factory_forwards_datagrams_witness :
  UDPClientFactory_datagram_received
    (connection_made
       (UDPClientFactory_init (PyStr "0.0.0.0") true
          (Some (data_received_callback Double.quiet 3)))
       (mkTransport (over_addrs Double.any_local Double.routing_group)))
    [] (PyTuple [PyStr "192.168.1.20"; PyInt 3671%Z]) Double.two_listeners =
  (Ret tt, Double.two_listeners,
   [raw_socket_logger_debug_Received (PyTuple [PyStr "192.168.1.20"; PyInt 3671%Z]) []]).
Proof.
  apply (factory_forwards_datagrams Double.quiet 3 Double.multicast_client
           (UDPClientFactory_init (PyStr "0.0.0.0") true
              (Some (data_received_callback Double.quiet 3)))
           [mkTransport (over_addrs Double.any_local Double.routing_group)]
           [] (PyTuple [PyStr "192.168.1.20"; PyInt 3671%Z]) Double.two_listeners).
  reflexivity.
Defined.

(** ** Two more edges *)

Section Edges.

Context {knxip : KNXIP} {host : Host}.

(** X15.  [create_multicast_sock] packs [own_ip] only after it has created
    the socket, set [SO_REUSEADDR] and made it non-blocking: with an
    [own_ip] that is no string it raises [TypeError] after exactly these
    three calls, whatever the group address is.  The constructor does not
    look at the items of [local_addr], so a multicast [connect] can get
    there. *)
Theorem create_multicast_sock_needs_a_string (own_ip group_addr : PyVal) (s : State) :
  (forall str, own_ip <> PyStr str) ->
  os_accepts []
    [socket_AF_INET_SOCK_DGRAM;
     setsockopt SOL_SOCKET SO_REUSEADDR (OptInt 1);
     setblocking false] = true ->
  create_multicast_sock own_ip group_addr s =
  (Raise TypeError, s,
   [sys_call socket_AF_INET_SOCK_DGRAM;
    sys_call (setsockopt SOL_SOCKET SO_REUSEADDR (OptInt 1));
    sys_call (setblocking false)]).
Proof.
  intros Hown Hok. simpl in Hok.
  rewrite !andb_true_iff in Hok. destruct Hok as (H1 & H2 & H3 & _).
  unfold create_multicast_sock.
  unfold bindM at 1. rewrite sys_eq, H1. cbn [app].
  unfold bindM at 1. rewrite sys_eq, H2. cbn [app].
  unfold bindM at 1. rewrite sys_eq, H3. cbn [app].
  unfold bindM at 1, socket_inet_aton.
  destruct own_ip as [| | str | |]; try reflexivity.
  now elim (Hown str).
Qed.

(** X16.  A handle can be unregistered once: in a state a client can be
    in, unregistering a registered handle returns, and unregistering it
    again raises [ValueError] and leaves the client as the first
    unregistration left it. *)
Theorem unregister_twice_raises (h : Callback) (s : State) :
  wf s ->
  In (cb_id h) (ids s) ->
  outcome_of (unregister_callback h s) = Ret tt /\
  unregister_callback h (state_of (unregister_callback h s)) =
  (Raise ValueError, state_of (unregister_callback h s), []).
Proof.
  intros [Hnd _] Hin.
  rewrite (unregister_callback_eq h s).
  destruct (list_remove h (callbacks (self s))) as [l'|] eqn:E.
  2:{ apply list_remove_None in E. now elim E. }
  destruct (list_remove_NoDup h _ _ Hnd E) as [_ Hout].
  unfold outcome_of, state_of. simpl. split; [reflexivity|].
  rewrite unregister_callback_eq. simpl.
  apply list_remove_None in Hout. now rewrite Hout.
Qed.

End Edges.

(** X15 on an [own_ip] that is an integer. *)
Lemma create_multicast_sock_needs_a_string_witness :
  create_multicast_sock (host := Double.linux) (PyInt 0%Z) Double.routing_group
    Double.connected_unicast =
  (Raise TypeError, Double.connected_unicast,
   [sys_call socket_AF_INET_SOCK_DGRAM;
    sys_call (setsockopt SOL_SOCKET SO_REUSEADDR (OptInt 1));
    sys_call (setblocking false)]).
Proof.
  apply (create_multicast_sock_needs_a_string (host := Double.linux)
           (PyInt 0%Z) Double.routing_group Double.connected_unicast).
  - discriminate.
  - reflexivity.
Defined.

(** X16 on the second of two registrations. *)
Lemma unregister_twice_raises_witness :
  outcome_of (unregister_callback Double.second_handle Double.two_listeners) = Ret tt /\
  unregister_callback Double.second_handle
    (state_of (unregister_callback Double.second_handle Double.two_listeners)) =
  (Raise ValueError,
   state_of (unregister_callback Double.second_handle Double.two_listeners), []).
Proof.
  apply (unregister_twice_raises Double.second_handle Double.two_listeners).
  - split.
    + repeat constructor; simpl; intuition discriminate.
    + repeat constructor.
  - simpl. auto.
Defined.

(** A multicast client that was stopped: the transport is still in place,
    [send] makes the call with the group as destination, and the
    [AttributeError] the closed transport raises leaves [send]. *)
Example send_on_a_closed_multicast_transport :
  send_with (Some AttributeError) Double.search_request
    (state_of (stop Double.connected_multicast)) =
  (Raise AttributeError, Double.connected_multicast,
   [knx_logger_debug_Sending Double.search_request;
    transport_sendto
      (mkTransport
         (over_sock
            (spec_multicast_config "linux" [x00; x00; x00; x00] [xe0; x00; x17; x0c]
               (PyStr "224.0.23.12") (PyInt 3671%Z))))
      Double.search_request_raw (Some Double.routing_group)]).
Proof. reflexivity. Qed.
